(** * Ramadan 2024 dashboard: the filter / aggregate / summarise pipeline

    A shallow embedding of [app.py].  The script is a straight line of pandas
    calls driven by five sidebar controls; it is modelled here as functions of
    the loaded frame and of those controls.

    Modelling conventions.
    - A [pd.Timestamp] is its integer count of nanoseconds since the epoch
      (pandas' own representation), a [datetime.date] is its day number
      relative to 1970-01-01, so [pd.Timestamp(d)] is [d * ns_per_day].
    - The numeric columns hold finite numbers; they are modelled as rationals.
      Maximum and minimum are exact on them, the mean is the exact quotient.
      A reduction of an empty column is pandas' NaN, written [NaN].
    - A Python exception ends the run: every step returns a [result].
    - A frame that went through [reset_index] carries its integer labels
      explicitly, since [idxmax] and [loc] work on labels. *)

From Stdlib Require Import ZArith QArith Qminmax List String Bool Lia.
From Stdlib Require Import Sorting.Sorted OrderedTypeEx.
From Stdlib Require Import Sorting.Permutation Lqa.
Import ListNotations.
Open Scope Z_scope.

(** ** Exceptions and results *)

(** The ways a run can end abnormally.  [IndexError], [KeyError] and
    [ValueError] are the Python built-ins raised by tuple indexing and by
    pandas.  The last four are the validation errors of the documented error
    taxonomy; no statement of [app.py] raises them. *)
Inductive exn : Type :=
| IndexError
| KeyError
| ValueError
| InvalidRange
| EmptySelection
| NoDataForService
| InsufficientData.

Inductive result (A : Type) : Type :=
| Returned (a : A)
| Raised (e : exn).
Arguments Returned {A} a.
Arguments Raised {A} e.

Definition bind {A B : Type} (m : result A) (k : A -> result B) : result B :=
  match m with
  | Returned a => k a
  | Raised e => Raised e
  end.

Notation "x <- m ;; k" := (bind m (fun x => k))
  (at level 61, m at next level, right associativity).

(** ** Time *)

Definition Timestamp := Z.
Definition date := Z.

Definition ns_per_second : Z := 1000000000.
Definition ns_per_day : Z := 86400 * ns_per_second.

Definition Timestamp_of_date (d : date) : Timestamp := d * ns_per_day.
Definition Timedelta_days (n : Z) : Z := n * ns_per_day.
Definition Timedelta_seconds (n : Z) : Z := n * ns_per_second.

(** ** The loaded frame *)

(** One row of [ramadan_hourly.csv] after [pd.to_datetime] on [hour]. *)
Record Observation : Type := mkObservation {
  hour : Timestamp;
  service : string;
  tps : Q;
  pods : Z
}.

(** ** Sidebar controls *)

(** [st.selectbox("Group Data By", ["Hour", "Day", "Week"])]. *)
Inductive TimeWindow : Type := Hour | Day | Week.

(** [st.selectbox("Calculate", ["Maximum", "Average", "Minimum"])]. *)
Inductive AggMethod : Type := Maximum | Average | Minimum.

(** [st.multiselect("Select Metrics", ["TPS", "Pods"])]. *)
Inductive Metric : Type := TPS | Pods.

Definition Metric_eqb (a b : Metric) : bool :=
  match a, b with
  | TPS, TPS | Pods, Pods => true
  | _, _ => false
  end.

(** ** Lines 80-86: the date and service filters *)

(** [t[i]] on a tuple. *)
Definition getitem {A : Type} (t : list A) (i : nat) : result A :=
  match nth_error t i with
  | Some x => Returned x
  | None => Raised IndexError
  end.

(** Lines 81-82: [start_date] and [end_date]. *)
Definition date_bounds (date_range : list date)
  : result (Timestamp * Timestamp) :=
  d0 <- getitem date_range 0 ;;
  let start_date := Timestamp_of_date d0 in
  d1 <- getitem date_range 1 ;;
  let end_date :=
    Timestamp_of_date d1 + Timedelta_days 1 - Timedelta_seconds 1 in
  Returned (start_date, end_date).

(** [Series.isin(values)] on one cell. *)
Definition isin (s : string) (values : list string) : bool :=
  existsb (String.eqb s) values.

Definition in_window (start_date end_date : Timestamp) (o : Observation)
  : bool :=
  (start_date <=? hour o) && (hour o <=? end_date).

(** Lines 83 and 86. *)
Definition filter_rows (df : list Observation)
  (start_date end_date : Timestamp) (selected_services : list string)
  : list Observation :=
  let df_filtered := filter (in_window start_date end_date) df in
  filter (fun o => isin (service o) selected_services) df_filtered.

(** ** Lines 89-94: the group column *)

(** The two frequency aliases the script passes to [dt.floor]. *)
Inductive Freq : Type := FreqD | FreqW.

(** The length of a frequency in nanoseconds.  ['D'] is the fixed frequency of
    one day.  ['W'] is the anchored offset [Week(weekday=6)], which has no
    fixed length: pandas raises
    [ValueError: <Week: weekday=6> is a non-fixed frequency]. *)
Definition freq_nanos (f : Freq) : result Z :=
  match f with
  | FreqD => Returned ns_per_day
  | FreqW => Raised ValueError
  end.

(** [Series.dt.floor(freq)]: the frequency is resolved first, then every value
    [v] becomes [v - remainder(v, unit)], the remainder taking the sign of
    the divisor. *)
Definition dt_floor (f : Freq) (col : list Timestamp)
  : result (list Timestamp) :=
  unit <- freq_nanos f ;;
  Returned (map (fun v => v - v mod unit) col).

Definition group_column (time_window : TimeWindow) (hours : list Timestamp)
  : result (list Timestamp) :=
  match time_window with
  | Day => dt_floor FreqD hours
  | Week => dt_floor FreqW hours
  | Hour => Returned hours
  end.

(** A row of [df_filtered] once the [group] column is assigned. *)
Record Grouped : Type := mkGrouped {
  obs : Observation;
  group : Timestamp
}.

Definition assign_group (df_filtered : list Observation)
  (col : list Timestamp) : list Grouped :=
  map (fun p => mkGrouped (fst p) (snd p)) (combine df_filtered col).

(** ** Lines 97-107: group-by and reduction *)

Inductive AggFunc : Type := agg_max | agg_mean | agg_min.

Definition agg_map (agg_method : AggMethod) : AggFunc :=
  match agg_method with
  | Maximum => agg_max
  | Average => agg_mean
  | Minimum => agg_min
  end.

(** The reduction of a non-empty column [x :: xs]. *)
Definition reduce (how : AggFunc) (x : Q) (xs : list Q) : Q :=
  match how with
  | agg_max => fold_left Qmax xs x
  | agg_min => fold_left Qmin xs x
  | agg_mean =>
      (fold_left Qplus xs x / inject_Z (Z.of_nat (S (List.length xs))))%Q
  end.

(** The group key [['group', 'service']]. *)
Definition key : Type := (Timestamp * string)%type.

Definition key_of (r : Grouped) : key := (group r, service (obs r)).

(** Keys are ordered as tuples: by [group], then by [service]. *)
Definition key_compare (a b : key) : comparison :=
  match fst a ?= fst b with
  | Eq => String.compare (snd a) (snd b)
  | c => c
  end.

Definition key_eqb (a b : key) : bool :=
  (fst a =? fst b) && String.eqb (snd a) (snd b).

(** The groups of a [groupby]: one entry per key that occurs, in ascending key
    order (pandas sorts group keys), each with its rows in frame order. *)
Definition groups : Type := list (key * (Grouped * list Grouped)).

Fixpoint insert_row (r : Grouped) (gs : groups) : groups :=
  match gs with
  | [] => [(key_of r, (r, []))]
  | (k, (r0, rs)) :: gs' =>
      match key_compare (key_of r) k with
      | Lt => (key_of r, (r, [])) :: gs
      | Eq => (k, (r, r0 :: rs)) :: gs'
      | Gt => (k, (r0, rs)) :: insert_row r gs'
      end
  end.

Definition groupby (rows : list Grouped) : groups :=
  fold_right insert_row [] rows.

(** A row of [df_agg]. *)
Record AggregatedBucket : Type := mkBucket {
  bucket_start : Timestamp;
  bucket_service : string;
  tps_value : Q;
  pods_value : Q
}.

Definition bucket_key (b : AggregatedBucket) : key :=
  (bucket_start b, bucket_service b).

Definition row_tps (r : Grouped) : Q := tps (obs r).
Definition row_pods (r : Grouped) : Q := inject_Z (pods (obs r)).

Definition agg_group (how : AggFunc) (g : key * (Grouped * list Grouped))
  : AggregatedBucket :=
  let '(k, (r, rs)) := g in
  mkBucket (fst k) (snd k)
    (reduce how (row_tps r) (map row_tps rs))
    (reduce how (row_pods r) (map row_pods rs)).

(** A frame with its index labels. *)
Definition Frame (A : Type) : Type := list (nat * A).

(** [reset_index()]: the group keys become columns and the rows get the
    labels 0, 1, 2, ... *)
Definition reset_index {A : Type} (rows : list A) : Frame A :=
  combine (seq 0 (List.length rows)) rows.

(** Lines 104-107. *)
Definition groupby_agg (how : AggFunc) (rows : list Grouped)
  : Frame AggregatedBucket :=
  reset_index (map (agg_group how) (groupby rows)).

(** ** Lines 80-107 as one function *)

Definition aggregate (df : list Observation) (date_range : list date)
  (time_window : TimeWindow) (agg_method : AggMethod)
  (selected_services : list string) : result (Frame AggregatedBucket) :=
  bounds <- date_bounds date_range ;;
  let df_filtered :=
    filter_rows df (fst bounds) (snd bounds) selected_services in
  col <- group_column time_window (map hour df_filtered) ;;
  let df_filtered := assign_group df_filtered col in
  let agg_method_str := agg_map agg_method in
  Returned (groupby_agg agg_method_str df_filtered).

(** ** Lines 168-199: the statistics table *)

(** A float that may be NaN. *)
Inductive float64 : Type :=
| NaN
| Fin (q : Q).

(** A column of a frame, with the frame's labels. *)
Definition column {A : Type} (f : A -> Q) (df : Frame A) : Frame Q :=
  map (fun p => (fst p, f (snd p))) df.

(** [df_agg[df_agg['service'] == service]]. *)
Definition service_rows (df_agg : Frame AggregatedBucket) (s : string)
  : Frame AggregatedBucket :=
  filter (fun p => String.eqb (bucket_service (snd p)) s) df_agg.

(** [Series.max()]. *)
Definition Series_max (col : Frame Q) : float64 :=
  match col with
  | [] => NaN
  | p :: ps => Fin (fold_left Qmax (map snd ps) (snd p))
  end.

(** [Series.mean()]. *)
Definition Series_mean (col : Frame Q) : float64 :=
  match col with
  | [] => NaN
  | p :: ps =>
      Fin (fold_left Qplus (map snd ps) (snd p)
           / inject_Z (Z.of_nat (List.length col)))%Q
  end.

(** The scan behind [idxmax]: the running best is replaced only by a strictly
    larger value, so the first occurrence of the maximum wins. *)
Fixpoint argmax_from (best : nat * Q) (rest : Frame Q) : nat :=
  match rest with
  | [] => fst best
  | p :: rest' =>
      match (snd best ?= snd p)%Q with
      | Lt => argmax_from p rest'
      | _ => argmax_from best rest'
      end
  end.

(** [Series.idxmax()]: the label of the first maximum; an empty column raises
    [ValueError: attempt to get argmax of an empty sequence]. *)
Definition idxmax (col : Frame Q) : result nat :=
  match col with
  | [] => Raised ValueError
  | p :: ps => Returned (argmax_from p ps)
  end.

(** [df.loc[label]]. *)
Definition loc {A : Type} (df : Frame A) (label : nat) : result A :=
  match find (fun p => Nat.eqb (fst p) label) df with
  | Some p => Returned (snd p)
  | None => Raised KeyError
  end.

Definition metric_value (m : Metric) (b : AggregatedBucket) : Q :=
  match m with
  | TPS => tps_value b
  | Pods => pods_value b
  end.

(** The numbers one metric contributes to a statistics row. *)
Record Summary : Type := mkSummary {
  peak_value : float64;
  peak_time : Timestamp;
  average_value : float64
}.

(** Lines 174-177 for TPS, lines 187-190 for Pods. *)
Definition summarize (service_data : Frame AggregatedBucket) (m : Metric)
  : result Summary :=
  let col := column (metric_value m) service_data in
  let peak := Series_max col in
  peak_idx <- idxmax col ;;
  peak_row <- loc service_data peak_idx ;;
  let avg := Series_mean col in
  Returned (mkSummary peak (bucket_start peak_row) avg).

Record StatRow : Type := mkStatRow {
  stat_service : string;
  stat_tps : option Summary;
  stat_pods : option Summary
}.

Definition shown (m : Metric) (show_metrics : list Metric) : bool :=
  existsb (Metric_eqb m) show_metrics.

(** [if m in show_metrics: ...]. *)
Definition summarize_if_shown (service_data : Frame AggregatedBucket)
  (m : Metric) (show_metrics : list Metric) : result (option Summary) :=
  if shown m show_metrics
  then s <- summarize service_data m ;; Returned (Some s)
  else Returned None.

(** One iteration of the loop of lines 169-199. *)
Definition stat_row (df_agg : Frame AggregatedBucket) (s : string)
  (show_metrics : list Metric) : result StatRow :=
  let service_data := service_rows df_agg s in
  t <- summarize_if_shown service_data TPS show_metrics ;;
  p <- summarize_if_shown service_data Pods show_metrics ;;
  Returned (mkStatRow s t p).

(** The loop itself. *)
Fixpoint stats (df_agg : Frame AggregatedBucket)
  (selected_services : list string) (show_metrics : list Metric)
  : result (list StatRow) :=
  match selected_services with
  | [] => Returned []
  | s :: rest =>
      row <- stat_row df_agg s show_metrics ;;
      rows <- stats df_agg rest show_metrics ;;
      Returned (row :: rows)
  end.

(** ** Lines 248-249: the correlation coefficient *)

(** The value of [Series.corr]: NaN, or the Pearson coefficient
    [cov / sqrt(var_product)].  The square root is not rational, so the
    coefficient is kept exactly, as this pair. *)
Inductive Correlation : Type :=
| CorrNaN
| CorrRatio (cov : Q) (var_product : Q).

Definition Qsum (xs : list Q) : Q := fold_left Qplus xs 0%Q.

Definition Qmean (xs : list Q) : Q :=
  (Qsum xs / inject_Z (Z.of_nat (List.length xs)))%Q.

(** The sample covariance of [numpy.cov]: centred products over [n - 1]. *)
Definition covariance (xs ys : list Q) : Q :=
  let mx := Qmean xs in
  let my := Qmean ys in
  (Qsum (map (fun p => (fst p - mx) * (snd p - my)) (combine xs ys))
   / inject_Z (Z.of_nat (List.length xs) - 1))%Q.

(** [Series.corr(other)], Pearson.  No rows: NaN at once.  One row:
    [numpy.corrcoef] divides zero by zero degrees of freedom, NaN.  A constant
    column: zero over zero, NaN.  Nothing is raised. *)
Definition Series_corr (xs ys : list Q) : Correlation :=
  match List.length xs with
  | O => CorrNaN
  | S O => CorrNaN
  | _ =>
      let v := (covariance xs xs * covariance ys ys)%Q in
      if Qeq_bool v 0 then CorrNaN else CorrRatio (covariance xs ys) v
  end.

(** Line 233 and line 249. *)
Definition correlate (df_agg : Frame AggregatedBucket) (s : string)
  : result Correlation :=
  let service_data := service_rows df_agg s in
  Returned (Series_corr (map (fun p => tps_value (snd p)) service_data)
                        (map (fun p => pods_value (snd p)) service_data)).

(** ** Lines 22-37 and 63-78: the defaults of the sidebar *)

(** [Timestamp.date()]: the calendar day of a timestamp. *)
Definition Timestamp_date (t : Timestamp) : date := t / ns_per_day.

(** [df['hour'].min()] and [df['hour'].max()]; [None] is pandas' [NaT], the
    value for a frame without rows. *)
Definition hour_min (df : list Observation) : option Timestamp :=
  match df with
  | [] => None
  | o :: l => Some (fold_left Z.min (map hour l) (hour o))
  end.

Definition hour_max (df : list Observation) : option Timestamp :=
  match df with
  | [] => None
  | o :: l => Some (fold_left Z.max (map hour l) (hour o))
  end.

(** The [value] of the date widget: [(min_date.date(), max_date.date())]. *)
Definition default_date_range (df : list Observation) : option (list date) :=
  match hour_min df, hour_max df with
  | Some min_date, Some max_date =>
      Some [Timestamp_date min_date; Timestamp_date max_date]
  | _, _ => None
  end.

(** [Series.unique()]: the distinct values in order of first appearance. *)
Fixpoint unique_from (seen : list string) (l : list string) : list string :=
  match l with
  | [] => []
  | x :: l' =>
      if isin x seen then unique_from seen l'
      else x :: unique_from (x :: seen) l'
  end.

Definition unique (l : list string) : list string := unique_from [] l.

(** [sorted(...)] on strings: the ascending arrangement of the values. *)
Fixpoint insert_sorted (x : string) (l : list string) : list string :=
  match l with
  | [] => [x]
  | y :: l' =>
      if String.leb x y then x :: l else y :: insert_sorted x l'
  end.

Definition sorted (l : list string) : list string :=
  fold_right insert_sorted [] l.

(** [sorted(df['service'].unique())], lines 71 and 78. *)
Definition all_services (df : list Observation) : list string :=
  sorted (unique (map service df)).

(** [st.radio("View Mode", ["All Services", "Select Services"])]. *)
Inductive ViewMode : Type := AllServices | SelectServices.

(** Lines 70-78; [picked] is what the multiselect returns. *)
Definition service_selection (view_mode : ViewMode) (df : list Observation)
  (picked : list string) : list string :=
  match view_mode with
  | SelectServices => picked
  | AllServices => all_services df
  end.

(** ** Lines 109-161: the traces of the line chart *)

(** What [go.Scatter] is given, and the axis [add_trace] puts it on. *)
Record Trace : Type := mkTrace {
  trace_name : string;
  trace_x : list Timestamp;
  trace_y : list Q;
  trace_dash : option string;
  trace_secondary_y : bool
}.

(** Line 110. *)
Definition use_secondary_y (show_metrics : list Metric) : bool :=
  (1 <? List.length show_metrics)%nat.

(** One iteration of the loop of lines 114-139. *)
Definition service_traces (df_agg : Frame AggregatedBucket)
  (show_metrics : list Metric) (s : string) : list Trace :=
  let service_data := service_rows df_agg s in
  let x := map (fun p => bucket_start (snd p)) service_data in
  (if shown TPS show_metrics
   then [mkTrace (s ++ " (TPS)")%string x
           (map (fun p => tps_value (snd p)) service_data) None false]
   else []) ++
  (if shown Pods show_metrics
   then [mkTrace (s ++ " (Pods)")%string x
           (map (fun p => pods_value (snd p)) service_data) (Some "dot"%string)
           (use_secondary_y show_metrics)]
   else []).

Definition traces (df_agg : Frame AggregatedBucket)
  (show_metrics : list Metric) (selected_services : list string)
  : list Trace :=
  flat_map (service_traces df_agg show_metrics) selected_services.

(** Lines 159-161: the axis that gets the title "Number of Pods", if any. *)
Definition pods_title_axis (show_metrics : list Metric) : option bool :=
  if shown Pods show_metrics
  then Some (if shown TPS show_metrics then use_secondary_y show_metrics
             else false)
  else None.

(** ** Lines 80-199 in sequence *)

Record Dashboard : Type := mkDashboard {
  dash_agg : Frame AggregatedBucket;
  dash_traces : list Trace;
  dash_stats : list StatRow
}.

(** The computations of the script from the filters to the statistics rows.
    The calls into the charting and page libraries only consume these values.
*)
Definition run (df : list Observation) (date_range : list date)
  (time_window : TimeWindow) (agg_method : AggMethod)
  (show_metrics : list Metric) (selected_services : list string)
  : result Dashboard :=
  df_agg <- aggregate df date_range time_window agg_method
              selected_services ;;
  let fig := traces df_agg show_metrics selected_services in
  st <- stats df_agg selected_services show_metrics ;;
  Returned (mkDashboard df_agg fig st).

(** ** Auxiliary notions used to state the properties *)

(** The strict order on group keys. *)
Definition key_lt (a b : key) : Prop := key_compare a b = Lt.

Definition keys (gs : groups) : list key := map fst gs.

(** The rows filed under a key. *)
Fixpoint rows_of (k : key) (gs : groups) : list Grouped :=
  match gs with
  | [] => []
  | (k', (r, rs)) :: gs' => if key_eqb k' k then r :: rs else rows_of k gs'
  end.

(** What [dt.floor('D')] does to one value. *)
Definition floor_day (t : Timestamp) : Timestamp := t - t mod ns_per_day.

(** The bucket start a time window assigns to one timestamp: the group column
    of a one-row frame. *)
Definition floor_to (time_window : TimeWindow) (t : Timestamp)
  : result Timestamp :=
  col <- group_column time_window [t] ;; getitem col 0.

(** The aggregated frame has a row for the service. *)
Definition has_bucket (df_agg : Frame AggregatedBucket) (s : string) : Prop :=
  exists i b, In (i, b) df_agg /\ bucket_service b = s.

(** The strict order on service names. *)
Definition string_lt (a b : string) : Prop := String.compare a b = Lt.

(** ** Sample data *)

Definition ns_per_hour : Z := 3600 * ns_per_second.

(** 2024-03-11, the first day of Ramadan 2024, as a day number. *)
Definition day_2024_03_11 : date := 19793.

Definition at_hour (d : date) (h : Z) : Timestamp :=
  Timestamp_of_date d + h * ns_per_hour.

Definition sample_df : list Observation :=
  [ mkObservation (at_hour day_2024_03_11 0) "checkout" (10 # 1) 2;
    mkObservation (at_hour day_2024_03_11 0) "payments" (7 # 1) 4;
    mkObservation (at_hour day_2024_03_11 1) "checkout" (20 # 1) 3;
    mkObservation (at_hour day_2024_03_11 1) "payments" (7 # 1) 4;
    mkObservation (at_hour day_2024_03_11 2) "checkout" (15 # 1) 2;
    mkObservation (at_hour (day_2024_03_11 + 1) 5) "checkout" (20 # 1) 3 ].

Definition sample_range : list date := [day_2024_03_11; day_2024_03_11 + 1].

(** [df_agg] for the sample frame, hourly maxima of both services. *)
Definition sample_agg : Frame AggregatedBucket :=
  groupby_agg agg_max
    (map (fun o => mkGrouped o (hour o)) sample_df).

(** [df_agg] for the second day of the sample range alone: one bucket. *)
Definition sample_agg_second_day : Frame AggregatedBucket :=
  groupby_agg agg_max
    [ mkGrouped
        (mkObservation (at_hour (day_2024_03_11 + 1) 5) "checkout" (20 # 1) 3)
        (at_hour (day_2024_03_11 + 1) 5) ].

(** * Properties *)

(** ** The error monad *)

Lemma bind_Returned {A B : Type} (m : result A) (k : A -> result B) (b : B) :
  bind m k = Returned b -> exists a, m = Returned a /\ k a = Returned b.
Proof.
  destruct m as [a|e]; simpl; intro H; [exists a; auto | discriminate].
Qed.

(** ** The order on group keys *)

Lemma string_compare_refl (s : string) : String.compare s s = Eq.
Proof. apply String_as_OT.cmp_eq. reflexivity. Qed.

Lemma string_lt_trans (a b c : string) :
  String.compare a b = Lt -> String.compare b c = Lt ->
  String.compare a c = Lt.
Proof.
  intros H1 H2. apply String_as_OT.cmp_lt.
  apply String_as_OT.cmp_lt in H1. apply String_as_OT.cmp_lt in H2.
  exact (String_as_OT.lt_trans _ _ _ H1 H2).
Qed.

Lemma key_compare_eq (a b : key) : key_compare a b = Eq -> a = b.
Proof.
  destruct a as [ga sa], b as [gb sb]. unfold key_compare. simpl.
  destruct (ga ?= gb) eqn:Hg; try discriminate.
  intro Hs. apply Z.compare_eq_iff in Hg.
  apply String_as_OT.cmp_eq in Hs. congruence.
Qed.

Lemma key_compare_refl (a : key) : key_compare a a = Eq.
Proof.
  unfold key_compare. rewrite Z.compare_refl. apply string_compare_refl.
Qed.

Lemma key_lt_irrefl (a : key) : ~ key_lt a a.
Proof. unfold key_lt. rewrite key_compare_refl. discriminate. Qed.

Lemma key_compare_gt (a b : key) : key_compare a b = Gt -> key_lt b a.
Proof.
  destruct a as [ga sa], b as [gb sb]. unfold key_lt, key_compare. simpl.
  rewrite (Z.compare_antisym ga gb).
  destruct (ga ?= gb) eqn:Hg; simpl; try discriminate; auto.
  intro H. rewrite (String.compare_antisym sb sa), H. reflexivity.
Qed.

Lemma key_lt_trans (a b c : key) : key_lt a b -> key_lt b c -> key_lt a c.
Proof.
  destruct a as [ga sa], b as [gb sb], c as [gc sc].
  unfold key_lt, key_compare. simpl.
  destruct (ga ?= gb) eqn:Hab; try discriminate;
    destruct (gb ?= gc) eqn:Hbc; try discriminate; intros H1 H2.
  - apply Z.compare_eq_iff in Hab, Hbc. subst.
    rewrite Z.compare_refl. eapply string_lt_trans; eauto.
  - apply Z.compare_eq_iff in Hab. subst. rewrite Hbc. reflexivity.
  - apply Z.compare_eq_iff in Hbc. subst. rewrite Hab. reflexivity.
  - rewrite Z.compare_lt_iff in Hab, Hbc.
    assert (Hac : (ga ?= gc) = Lt) by (apply Z.compare_lt_iff; lia).
    rewrite Hac. reflexivity.
Qed.

(** At equal services the key order is the order of the bucket starts. *)
Lemma key_lt_same_service (ga gb : Timestamp) (s : string) :
  key_lt (ga, s) (gb, s) -> ga < gb.
Proof.
  unfold key_lt, key_compare. simpl.
  destruct (ga ?= gb) eqn:Hg; try discriminate.
  - rewrite string_compare_refl. discriminate.
  - intros _. apply Z.compare_lt_iff. exact Hg.
Qed.

Lemma key_eqb_eq (a b : key) : key_eqb a b = true <-> a = b.
Proof.
  destruct a as [ga sa], b as [gb sb]. unfold key_eqb. simpl.
  rewrite andb_true_iff, Z.eqb_eq, String.eqb_eq.
  split; [intros [-> ->]; reflexivity | intro H; inversion H; auto].
Qed.

Lemma key_eqb_refl (a : key) : key_eqb a a = true.
Proof. apply key_eqb_eq. reflexivity. Qed.

Lemma key_eqb_neq (a b : key) : a <> b -> key_eqb a b = false.
Proof.
  intro H. destruct (key_eqb a b) eqn:E; [|reflexivity].
  apply key_eqb_eq in E. contradiction.
Qed.

(** ** The groups of a group-by *)

Lemma insert_row_keys (r : Grouped) (gs : groups) (k : key) :
  In k (keys (insert_row r gs)) <-> k = key_of r \/ In k (keys gs).
Proof.
  induction gs as [|[k0 [r0 rs0]] gs IH]; simpl.
  - intuition auto.
  - destruct (key_compare (key_of r) k0) eqn:C; simpl.
    + apply key_compare_eq in C. subst k0. intuition auto.
    + intuition auto.
    + unfold keys in IH. rewrite IH. intuition auto.
Qed.

Lemma insert_row_sorted (r : Grouped) (gs : groups) :
  StronglySorted key_lt (keys gs) ->
  StronglySorted key_lt (keys (insert_row r gs)).
Proof.
  induction gs as [|[k0 [r0 rs0]] gs IH]; simpl; intro S.
  - repeat constructor.
  - inversion S as [|? ? S' F]; subst.
    destruct (key_compare (key_of r) k0) eqn:C; simpl.
    + constructor; assumption.
    + constructor; [exact S|].
      constructor; [exact C|].
      eapply Forall_impl; [|exact F].
      intros k Hk. eapply key_lt_trans; eauto.
    + constructor; [apply IH; exact S'|].
      apply Forall_forall. intros k Hk.
      apply insert_row_keys in Hk. destruct Hk as [->|Hk].
      * apply key_compare_gt. exact C.
      * rewrite Forall_forall in F. apply F. exact Hk.
Qed.

Lemma groupby_sorted (rows : list Grouped) :
  StronglySorted key_lt (keys (groupby rows)).
Proof.
  induction rows as [|r rows IH]; simpl.
  - constructor.
  - apply insert_row_sorted. exact IH.
Qed.

Lemma groupby_keys (rows : list Grouped) (k : key) :
  In k (keys (groupby rows)) <-> In k (map key_of rows).
Proof.
  induction rows as [|r rows IH]; simpl.
  - reflexivity.
  - rewrite insert_row_keys, IH. intuition auto.
Qed.

Lemma sorted_keys_NoDup (ks : list key) :
  StronglySorted key_lt ks -> NoDup ks.
Proof.
  induction 1 as [|k ks S IH F]; constructor; [|exact IH].
  intro Hin. rewrite Forall_forall in F. apply (key_lt_irrefl k). auto.
Qed.

Lemma rows_of_notin (k : key) (gs : groups) :
  ~ In k (keys gs) -> rows_of k gs = [].
Proof.
  induction gs as [|[k0 [r0 rs0]] gs IH]; simpl; intro H; [reflexivity|].
  rewrite key_eqb_neq by (intro E; apply H; left; exact E).
  apply IH. intro Hin. apply H. right. exact Hin.
Qed.

Lemma rows_of_insert_row (r : Grouped) (gs : groups) (k : key) :
  StronglySorted key_lt (keys gs) ->
  rows_of k (insert_row r gs) =
  if key_eqb (key_of r) k then r :: rows_of k gs else rows_of k gs.
Proof.
  induction gs as [|[k0 [r0 rs0]] gs IH]; simpl; intro S.
  - reflexivity.
  - inversion S as [|? ? S' F]; subst. rewrite Forall_forall in F.
    destruct (key_compare (key_of r) k0) eqn:C; simpl.
    + apply key_compare_eq in C. subst k0.
      destruct (key_eqb (key_of r) k); reflexivity.
    + destruct (key_eqb (key_of r) k) eqn:E; [|reflexivity].
      apply key_eqb_eq in E. subst k.
      rewrite key_eqb_neq.
      * rewrite rows_of_notin; [reflexivity|].
        intro Hin. apply (key_lt_irrefl (key_of r)).
        eapply key_lt_trans; [exact C | apply F; exact Hin].
      * intro E. rewrite E in C. apply (key_lt_irrefl _ C).
    + rewrite (IH S').
      destruct (key_eqb k0 k) eqn:E0; [|reflexivity].
      apply key_eqb_eq in E0. subst k0.
      rewrite key_eqb_neq; [reflexivity|].
      intro E. apply key_compare_gt in C. rewrite E in C.
      apply (key_lt_irrefl _ C).
Qed.

Lemma rows_of_groupby (rows : list Grouped) (k : key) :
  rows_of k (groupby rows) = filter (fun r => key_eqb (key_of r) k) rows.
Proof.
  induction rows as [|r rows IH]; simpl; [reflexivity|].
  rewrite rows_of_insert_row by apply groupby_sorted.
  rewrite IH. reflexivity.
Qed.

Lemma rows_of_In (gs : groups) (k : key) (r : Grouped) (rs : list Grouped) :
  NoDup (keys gs) -> In (k, (r, rs)) gs -> rows_of k gs = r :: rs.
Proof.
  induction gs as [|[k0 [r0 rs0]] gs IH]; simpl; intros N H; [contradiction|].
  inversion N as [|? ? Hn N']; subst.
  destruct H as [H|H].
  - inversion H; subst. rewrite key_eqb_refl. reflexivity.
  - rewrite key_eqb_neq; [apply IH; assumption|].
    intro E. subst k0. apply Hn.
    change k with (fst (k, (r, rs))). apply in_map. exact H.
Qed.

(** Every group holds exactly the rows of the frame that carry its key, in
    frame order. *)
Lemma groupby_In (rows : list Grouped) (k : key) (r : Grouped)
  (rs : list Grouped) :
  In (k, (r, rs)) (groupby rows) ->
  filter (fun r' => key_eqb (key_of r') k) rows = r :: rs.
Proof.
  intro H. rewrite <- rows_of_groupby.
  apply rows_of_In; [|exact H].
  apply sorted_keys_NoDup, groupby_sorted.
Qed.

(** ** Index labels *)

Lemma combine_seq_fst {A : Type} (l : list A) (s : nat) :
  map fst (combine (seq s (List.length l)) l) = seq s (List.length l).
Proof.
  revert s. induction l as [|a l IH]; simpl; intro s; [reflexivity|].
  rewrite IH. reflexivity.
Qed.

Lemma combine_seq_snd {A : Type} (l : list A) (s : nat) :
  map snd (combine (seq s (List.length l)) l) = l.
Proof.
  revert s. induction l as [|a l IH]; simpl; intro s; [reflexivity|].
  rewrite IH. reflexivity.
Qed.

Lemma reset_index_labels {A : Type} (l : list A) :
  NoDup (map fst (reset_index l)).
Proof. unfold reset_index. rewrite combine_seq_fst. apply seq_NoDup. Qed.

Lemma reset_index_rows {A : Type} (l : list A) :
  map snd (reset_index l) = l.
Proof. apply combine_seq_snd. Qed.

Lemma reset_index_In {A : Type} (l : list A) (i : nat) (a : A) :
  In (i, a) (reset_index l) -> In a l.
Proof.
  intro H. rewrite <- (reset_index_rows l).
  change a with (snd (i, a)). apply in_map. exact H.
Qed.

Lemma In_reset_index {A : Type} (l : list A) (a : A) :
  In a l -> exists i, In (i, a) (reset_index l).
Proof.
  intro H. rewrite <- (reset_index_rows l) in H.
  apply in_map_iff in H. destruct H as [[i a'] [E H]]. simpl in E. subst a'.
  exists i. exact H.
Qed.

(** ** The aggregated frame *)

Lemma agg_group_key (how : AggFunc) (g : key * (Grouped * list Grouped)) :
  bucket_key (agg_group how g) = fst g.
Proof. destruct g as [[t s] [r rs]]. reflexivity. Qed.

Lemma groupby_agg_keys (how : AggFunc) (rows : list Grouped) :
  map (fun p => bucket_key (snd p)) (groupby_agg how rows)
  = keys (groupby rows).
Proof.
  unfold groupby_agg. rewrite <- (map_map snd bucket_key).
  rewrite reset_index_rows, map_map. unfold keys.
  apply map_ext. intro g. apply agg_group_key.
Qed.

(** A bucket of the aggregated frame is the reduction of the rows that carry
    its key, and there is at least one such row. *)
Lemma groupby_agg_In (how : AggFunc) (rows : list Grouped) (i : nat)
  (b : AggregatedBucket) :
  In (i, b) (groupby_agg how rows) ->
  exists r rs,
    filter (fun r' => key_eqb (key_of r') (bucket_key b)) rows = r :: rs /\
    tps_value b = reduce how (row_tps r) (map row_tps rs) /\
    pods_value b = reduce how (row_pods r) (map row_pods rs).
Proof.
  intro H. apply reset_index_In in H. apply in_map_iff in H.
  destruct H as [[k [r rs]] [E H]]. exists r, rs.
  subst b. split; [|split; reflexivity].
  apply groupby_In. destruct k; exact H.
Qed.

Lemma groupby_agg_row (how : AggFunc) (rows : list Grouped) (i : nat)
  (b : AggregatedBucket) :
  In (i, b) (groupby_agg how rows) ->
  exists r, In r rows /\ key_of r = bucket_key b.
Proof.
  intro H. apply groupby_agg_In in H. destruct H as (r & rs & F & _).
  assert (Hin : In r (r :: rs)) by (left; reflexivity).
  rewrite <- F in Hin. apply filter_In in Hin. destruct Hin as [Hin E].
  exists r. split; [exact Hin | apply key_eqb_eq; exact E].
Qed.

Lemma groupby_agg_covers (how : AggFunc) (rows : list Grouped)
  (r : Grouped) :
  In r rows ->
  exists i b, In (i, b) (groupby_agg how rows) /\ bucket_key b = key_of r.
Proof.
  intro H.
  assert (Hk : In (key_of r) (keys (groupby rows)))
    by (apply groupby_keys, in_map, H).
  rewrite <- (groupby_agg_keys how) in Hk. apply in_map_iff in Hk.
  destruct Hk as [[i b] [E Hin]]. exists i, b. auto.
Qed.

(** ** The filters *)

Lemma isin_In (s : string) (values : list string) :
  isin s values = true <-> In s values.
Proof.
  unfold isin. rewrite existsb_exists. split.
  - intros [x [Hin E]]. apply String.eqb_eq in E. subst x. exact Hin.
  - intro Hin. exists s. split; [exact Hin | apply String.eqb_refl].
Qed.

Lemma filter_rows_In (df : list Observation) (start_date end_date : Timestamp)
  (selected_services : list string) (o : Observation) :
  In o (filter_rows df start_date end_date selected_services) <->
  In o df /\ start_date <= hour o <= end_date /\
  In (service o) selected_services.
Proof.
  unfold filter_rows, in_window.
  rewrite !filter_In, andb_true_iff, !Z.leb_le, isin_In. tauto.
Qed.

Lemma filter_rows_no_service (df : list Observation)
  (start_date end_date : Timestamp) :
  filter_rows df start_date end_date [] = [].
Proof.
  unfold filter_rows.
  induction (filter (in_window start_date end_date) df) as [|o l IH];
    simpl; auto.
Qed.

Lemma ns_per_day_value : ns_per_day = 86400000000000.
Proof. reflexivity. Qed.

Lemma ns_per_second_value : ns_per_second = 1000000000.
Proof. reflexivity. Qed.

Lemma filter_rows_reversed (df : list Observation) (d0 d1 : date)
  (selected_services : list string) :
  d1 < d0 ->
  filter_rows df (Timestamp_of_date d0)
    (Timestamp_of_date d1 + Timedelta_days 1 - Timedelta_seconds 1)
    selected_services = [].
Proof.
  intro H. unfold filter_rows. cbv zeta.
  assert (E : filter (in_window (Timestamp_of_date d0)
      (Timestamp_of_date d1 + Timedelta_days 1 - Timedelta_seconds 1)) df
      = []).
  { induction df as [|o df IH]; cbn [filter]; [reflexivity|].
    assert (W : in_window (Timestamp_of_date d0)
      (Timestamp_of_date d1 + Timedelta_days 1 - Timedelta_seconds 1) o
      = false).
    { unfold in_window. apply andb_false_iff.
      rewrite !Z.leb_gt.
      unfold Timestamp_of_date, Timedelta_days, Timedelta_seconds.
      rewrite ns_per_day_value, ns_per_second_value. lia. }
    rewrite W. exact IH. }
  rewrite E. reflexivity.
Qed.

(** ** The group column *)

Lemma floor_day_midnight (t : Timestamp) :
  floor_day t = ns_per_day * (t / ns_per_day).
Proof.
  unfold floor_day. rewrite ns_per_day_value.
  pose proof (Z.div_mod t 86400000000000). lia.
Qed.

Lemma floor_day_bounds (t : Timestamp) :
  floor_day t <= t < floor_day t + ns_per_day.
Proof.
  unfold floor_day. rewrite ns_per_day_value.
  pose proof (Z.mod_pos_bound t 86400000000000). lia.
Qed.

(** Flooring to the day does not leave a window that starts at a midnight. *)
Lemma floor_day_window (d0 : date) (e t : Timestamp) :
  Timestamp_of_date d0 <= t <= e ->
  Timestamp_of_date d0 <= floor_day t <= e.
Proof.
  intros [H0 H1]. pose proof (floor_day_bounds t) as B. split; [|lia].
  rewrite floor_day_midnight. unfold Timestamp_of_date in *.
  rewrite ns_per_day_value in *.
  assert (d0 <= t / 86400000000000) by (apply Z.div_le_lower_bound; lia).
  lia.
Qed.

Lemma group_column_Returned (time_window : TimeWindow)
  (hours col : list Timestamp) :
  group_column time_window hours = Returned col ->
  (time_window = Hour /\ col = hours) \/
  (time_window = Day /\ col = map floor_day hours).
Proof.
  destruct time_window; simpl; intro H; inversion H; auto.
Qed.

Lemma assign_group_map (f : Timestamp -> Timestamp)
  (df_filtered : list Observation) :
  assign_group df_filtered (map f (map hour df_filtered))
  = map (fun o => mkGrouped o (f (hour o))) df_filtered.
Proof.
  unfold assign_group.
  induction df_filtered as [|o l IH]; simpl; [reflexivity|].
  rewrite IH. reflexivity.
Qed.

(** When the group column can be computed, the grouped frame is the filtered
    frame with each row's bucket start next to it. *)
Lemma grouped_rows (time_window : TimeWindow)
  (df_filtered : list Observation) (col : list Timestamp) :
  group_column time_window (map hour df_filtered) = Returned col ->
  exists f,
    (forall t, floor_to time_window t = Returned (f t)) /\
    (time_window = Hour /\ f = (fun t => t) \/
     time_window = Day /\ f = floor_day) /\
    assign_group df_filtered col
    = map (fun o => mkGrouped o (f (hour o))) df_filtered.
Proof.
  intro H. apply group_column_Returned in H.
  destruct H as [[-> ->]|[-> ->]].
  - exists (fun t => t). split; [reflexivity|]. split; [auto|].
    rewrite <- (map_id (map hour df_filtered)) at 1.
    apply (assign_group_map (fun t => t)).
  - exists floor_day. split; [reflexivity|]. split; [auto|].
    apply assign_group_map.
Qed.

Lemma aggregate_two_dates (df : list Observation) (d0 d1 : date)
  (time_window : TimeWindow) (agg_method : AggMethod)
  (selected_services : list string) :
  aggregate df [d0; d1] time_window agg_method selected_services =
  let df_filtered :=
    filter_rows df (Timestamp_of_date d0)
      (Timestamp_of_date d1 + Timedelta_days 1 - Timedelta_seconds 1)
      selected_services in
  col <- group_column time_window (map hour df_filtered) ;;
  Returned (groupby_agg (agg_map agg_method) (assign_group df_filtered col)).
Proof. reflexivity. Qed.

(** ** Reductions *)

Lemma Qmax_cases (x y : Q) :
  ((x ?= y)%Q = Lt /\ Qmax x y = y) \/ ((x ?= y)%Q <> Lt /\ Qmax x y = x).
Proof.
  unfold Qmax, GenericMinMax.gmax.
  destruct (x ?= y)%Q; [right|left|right]; split; auto; discriminate.
Qed.

Lemma Qmin_cases (x y : Q) :
  ((x ?= y)%Q = Gt /\ Qmin x y = y) \/ ((x ?= y)%Q <> Gt /\ Qmin x y = x).
Proof.
  unfold Qmin, GenericMinMax.gmin.
  destruct (x ?= y)%Q; [right|right|left]; split; auto; discriminate.
Qed.

(** The running maximum is an element of the column and bounds it. *)
Lemma fold_Qmax_spec (xs : list Q) (x : Q) :
  In (fold_left Qmax xs x) (x :: xs) /\
  forall y, In y (x :: xs) -> (y <= fold_left Qmax xs x)%Q.
Proof.
  revert x. induction xs as [|a xs IH]; intro x; simpl.
  - split; [auto|]. intros y [<-|[]]. apply Qle_refl.
  - destruct (IH (Qmax x a)) as [Hin Hle]. split.
    + destruct Hin as [E|Hin]; [|auto].
      rewrite <- E. destruct (Qmax_cases x a) as [[_ ->]|[_ ->]]; auto.
    + intros y Hy.
      assert (B : (y <= Qmax x a)%Q \/ In y xs).
      { destruct Hy as [<-|[<-|Hy]]; auto; left.
        - apply Q.le_max_l.
        - apply Q.le_max_r. }
      destruct B as [B|B].
      * eapply Qle_trans; [exact B|]. apply Hle. left. reflexivity.
      * apply Hle. right. exact B.
Qed.

(** The running minimum is an element of the column and bounds it. *)
Lemma fold_Qmin_spec (xs : list Q) (x : Q) :
  In (fold_left Qmin xs x) (x :: xs) /\
  forall y, In y (x :: xs) -> (fold_left Qmin xs x <= y)%Q.
Proof.
  revert x. induction xs as [|a xs IH]; intro x; simpl.
  - split; [auto|]. intros y [<-|[]]. apply Qle_refl.
  - destruct (IH (Qmin x a)) as [Hin Hle]. split.
    + destruct Hin as [E|Hin]; [|auto].
      rewrite <- E. destruct (Qmin_cases x a) as [[_ ->]|[_ ->]]; auto.
    + intros y Hy.
      assert (B : (Qmin x a <= y)%Q \/ In y xs).
      { destruct Hy as [<-|[<-|Hy]]; auto; left.
        - apply Q.le_min_l.
        - apply Q.le_min_r. }
      destruct B as [B|B].
      * eapply Qle_trans; [|exact B]. apply Hle. left. reflexivity.
      * apply Hle. right. exact B.
Qed.

Lemma fold_Qplus_sum (xs : list Q) (x : Q) :
  (fold_left Qplus xs x == x + fold_right Qplus 0 xs)%Q.
Proof.
  revert x. induction xs as [|a xs IH]; intro x; simpl.
  - ring.
  - rewrite IH. ring.
Qed.

Lemma Qdiv_one (x : Q) : (x / inject_Z 1)%Q = x.
Proof.
  destruct x as [a b]. unfold Qdiv, Qmult, Qinv, inject_Z. simpl.
  rewrite Z.mul_1_r, Pos.mul_1_r. reflexivity.
Qed.

(** Each statistic leaves a one-element column unchanged. *)
Lemma reduce_single (how : AggFunc) (x : Q) : reduce how x [] = x.
Proof. destruct how; simpl; auto. apply Qdiv_one. Qed.

(** What each statistic computes of a non-empty column. *)
Lemma reduce_spec (how : AggFunc) (x : Q) (xs : list Q) :
  match how with
  | agg_max =>
      In (reduce how x xs) (x :: xs) /\
      forall y, In y (x :: xs) -> (y <= reduce how x xs)%Q
  | agg_min =>
      In (reduce how x xs) (x :: xs) /\
      forall y, In y (x :: xs) -> (reduce how x xs <= y)%Q
  | agg_mean =>
      (reduce how x xs * inject_Z (Z.of_nat (List.length (x :: xs)))
       == fold_right Qplus 0 (x :: xs))%Q
  end.
Proof.
  destruct how.
  - apply fold_Qmax_spec.
  - unfold reduce. rewrite fold_Qplus_sum.
    change (List.length (x :: xs)) with (S (List.length xs)).
    simpl fold_right. field.
    intro E. unfold inject_Z, Qeq in E. simpl in E. lia.
  - apply fold_Qmin_spec.
Qed.

Example sample_aggregate_hourly :
  aggregate sample_df sample_range Hour Maximum
    ["checkout"; "payments"]%string
  = Returned sample_agg.
Proof. reflexivity. Qed.

Example sample_aggregate_hourly_rows :
  map (fun p => (fst p, bucket_service (snd p), tps_value (snd p)))
    sample_agg
  = [ (0%nat, "checkout", 10 # 1); (1%nat, "payments", 7 # 1);
      (2%nat, "checkout", 20 # 1); (3%nat, "payments", 7 # 1);
      (4%nat, "checkout", 15 # 1); (5%nat, "checkout", 20 # 1) ]%string.
Proof. reflexivity. Qed.

Example sample_aggregate_daily_mean :
  aggregate sample_df [day_2024_03_11; day_2024_03_11] Day Average
    ["checkout"%string]
  = Returned [ (0%nat, mkBucket (at_hour day_2024_03_11 0) "checkout"
                        (((10 # 1) + (20 # 1) + (15 # 1)) / inject_Z 3)
                        ((inject_Z 2 + inject_Z 3 + inject_Z 2)
                         / inject_Z 3))%Q ].
Proof. vm_compute. reflexivity. Qed.

Example sample_summary :
  summarize (service_rows sample_agg "checkout") TPS
  = Returned (mkSummary (Fin (20 # 1)) (at_hour day_2024_03_11 1)
                        (Fin (((10 # 1) + (20 # 1) + (15 # 1) + (20 # 1))
                              / inject_Z 4))%Q).
Proof. vm_compute. reflexivity. Qed.

(** ** Which runs of [aggregate] fail, and how *)

Lemma aggregate_Week (df : list Observation) (d0 d1 : date)
  (rest : list date) (agg_method : AggMethod)
  (selected_services : list string) :
  aggregate df (d0 :: d1 :: rest) Week agg_method selected_services
  = Raised ValueError.
Proof. reflexivity. Qed.

Lemma aggregate_exn (df : list Observation) (date_range : list date)
  (time_window : TimeWindow) (agg_method : AggMethod)
  (selected_services : list string) (e : exn) :
  aggregate df date_range time_window agg_method selected_services
  = Raised e ->
  e = IndexError \/ e = ValueError.
Proof.
  destruct date_range as [|d0 [|d1 rest]]; simpl;
    try (intro H; inversion H; auto; fail).
  destruct time_window; simpl; intro H; inversion H; auto.
Qed.

(** C10.  The date widget can hand over a tuple that holds a single date.
    Then [date_range[1]] on line 82 is out of bounds: the run ends with
    [IndexError], which is none of the four validation errors, whatever the
    other controls are.  More precisely [aggregate] ends with [IndexError]
    exactly when the range holds fewer than two dates. *)
Theorem aggregate_single_date_IndexError :
  forall (df : list Observation) (time_window : TimeWindow)
         (agg_method : AggMethod) (selected_services : list string),
    (forall d : date,
        aggregate df [d] time_window agg_method selected_services
        = Raised IndexError) /\
    (forall date_range : list date,
        aggregate df date_range time_window agg_method selected_services
        = Raised IndexError
        <-> (List.length date_range < 2)%nat).
Proof.
  intros df tw am sel. split; [reflexivity|].
  intro dr. destruct dr as [|d0 [|d1 rest]]; simpl.
  - split; [lia | reflexivity].
  - split; [lia | reflexivity].
  - split; [|lia].
    destruct tw; simpl; discriminate.
Qed.

(** C1, as the code has it.  Nothing checks the service selection.  With no
    service selected, a two-date range and the Hour or Day window, the
    service filter keeps no row and [aggregate] returns the empty frame; and
    no run of [aggregate] ends with [EmptySelection]. *)
Theorem aggregate_empty_selection_returns_empty :
  forall (df : list Observation) (d0 d1 : date) (agg_method : AggMethod),
    aggregate df [d0; d1] Hour agg_method [] = Returned [] /\
    aggregate df [d0; d1] Day agg_method [] = Returned [] /\
    forall date_range time_window selected_services,
      aggregate df date_range time_window agg_method selected_services
      <> Raised EmptySelection.
Proof.
  intros df d0 d1 am.
  rewrite !aggregate_two_dates. cbv zeta.
  rewrite filter_rows_no_service. repeat split.
  intros dr tw sel H. apply aggregate_exn in H.
  destruct H; discriminate.
Qed.

(** C1 fails on the code: the sample frame, an empty selection. *)
Lemma aggregate_empty_selection_counterexample :
  aggregate sample_df sample_range Hour Maximum [] = Returned [] /\
  aggregate sample_df sample_range Hour Maximum [] <> Raised EmptySelection.
Proof. split; [reflexivity | discriminate]. Qed.

(** C2, as the code has it.  Nothing compares the two dates.  When the start
    date is after the end date the window is empty, and with the Hour or Day
    window [aggregate] returns the empty frame. *)
Theorem aggregate_reversed_range_returns_empty :
  forall (df : list Observation) (d0 d1 : date) (agg_method : AggMethod)
         (selected_services : list string),
    d1 < d0 ->
    aggregate df [d0; d1] Hour agg_method selected_services = Returned [] /\
    aggregate df [d0; d1] Day agg_method selected_services = Returned [].
Proof.
  intros df d0 d1 am sel H.
  rewrite !aggregate_two_dates. cbv zeta.
  rewrite (filter_rows_reversed df d0 d1 sel H). split; reflexivity.
Qed.

Lemma aggregate_reversed_range_witness :
  day_2024_03_11 < day_2024_03_11 + 1 /\
  aggregate sample_df [day_2024_03_11 + 1; day_2024_03_11] Hour Maximum
    ["checkout"%string] = Returned [] /\
  aggregate sample_df [day_2024_03_11 + 1; day_2024_03_11] Day Maximum
    ["checkout"%string] = Returned [].
Proof.
  split; [reflexivity|].
  apply (aggregate_reversed_range_returns_empty sample_df
           (day_2024_03_11 + 1) day_2024_03_11 Maximum ["checkout"%string]).
  reflexivity.
Defined.

(** C2 fails on the code: the sample frame, the two days of the sample range
    in reverse order. *)
Lemma aggregate_reversed_range_counterexample :
  day_2024_03_11 + 1 > day_2024_03_11 /\
  aggregate sample_df [day_2024_03_11 + 1; day_2024_03_11] Hour Maximum
    ["checkout"%string] = Returned [] /\
  aggregate sample_df [day_2024_03_11 + 1; day_2024_03_11] Hour Maximum
    ["checkout"%string] <> Raised InvalidRange.
Proof. split; [reflexivity|]. split; [reflexivity | discriminate]. Qed.

(** C4, on the code.  The Hour window keeps each timestamp, the Day window
    floors it to the midnight at or before it.  The Week window computes no
    bucket start at all: [dt.floor('W')] raises [ValueError], for every
    column, so every run with a two-date range and the Week window ends
    there. *)
Theorem time_window_bucketing :
  forall hours : list Timestamp,
    group_column Hour hours = Returned hours /\
    (group_column Day hours
     = Returned (map (fun t => ns_per_day * (t / ns_per_day)) hours) /\
     forall t, ns_per_day * (t / ns_per_day) <= t
               < ns_per_day * (t / ns_per_day) + ns_per_day) /\
    group_column Week hours = Raised ValueError /\
    forall df d0 d1 agg_method selected_services,
      aggregate df [d0; d1] Week agg_method selected_services
      = Raised ValueError.
Proof.
  intro hours. split; [reflexivity|]. split; [|split; reflexivity].
  split.
  - unfold group_column, dt_floor, freq_nanos, bind. f_equal.
    apply map_ext. intro t. apply floor_day_midnight.
  - intro t. rewrite <- floor_day_midnight. apply floor_day_bounds.
Qed.

(** The Week window on the sample frame. *)
Lemma week_window_raises :
  aggregate sample_df sample_range Week Maximum ["checkout"%string]
  = Raised ValueError.
Proof. reflexivity. Qed.

(** ** What the aggregated frame holds *)

Lemma window_dates (d0 d1 : date) (t : Timestamp) :
  Timestamp_of_date d0 <= t
  <= Timestamp_of_date d1 + Timedelta_days 1 - Timedelta_seconds 1 ->
  d0 <= t / ns_per_day <= d1.
Proof.
  unfold Timestamp_of_date, Timedelta_days, Timedelta_seconds.
  rewrite ns_per_day_value, ns_per_second_value. intros [H0 H1]. split.
  - apply Z.div_le_lower_bound; lia.
  - assert (t / 86400000000000 < d1 + 1); [|lia].
    apply Z.div_lt_upper_bound; lia.
Qed.

(** With a two-date range and the Hour or Day window every step succeeds. *)
Lemma aggregate_returns (df : list Observation) (d0 d1 : date)
  (time_window : TimeWindow) (agg_method : AggMethod)
  (selected_services : list string) :
  time_window <> Week ->
  exists df_agg,
    aggregate df [d0; d1] time_window agg_method selected_services
    = Returned df_agg.
Proof.
  intro H. rewrite aggregate_two_dates. cbv zeta.
  destruct time_window; [| |congruence]; eexists; reflexivity.
Qed.

(** C3.  A row of the loaded frame reaches the group-by exactly when its
    timestamp lies between the start date at 00:00:00 and the end date at
    23:59:59, both included, and its service is selected.  With the Hour or
    Day window [aggregate] returns; and whenever it returns, every such row
    has its bucket in the result, every bucket of the result comes from such
    a row, and so no bucket has a service outside the selection or a start
    outside the window or outside the days from the start date to the end
    date. *)
Theorem aggregate_window_and_services :
  forall (df : list Observation) (d0 d1 : date) (time_window : TimeWindow)
         (agg_method : AggMethod) (selected_services : list string),
    let start_date := Timestamp_of_date d0 in
    let end_date :=
      Timestamp_of_date d1 + Timedelta_days 1 - Timedelta_seconds 1 in
    let df_filtered := filter_rows df start_date end_date selected_services in
    d0 <= d1 ->
    selected_services <> [] ->
    (forall o, In o df_filtered <->
               In o df /\ start_date <= hour o <= end_date /\
               In (service o) selected_services) /\
    (time_window <> Week ->
     exists df_agg,
       aggregate df [d0; d1] time_window agg_method selected_services
       = Returned df_agg) /\
    (forall df_agg,
       aggregate df [d0; d1] time_window agg_method selected_services
       = Returned df_agg ->
       (forall o, In o df_filtered ->
                  exists i b, In (i, b) df_agg /\
                              bucket_service b = service o /\
                              floor_to time_window (hour o)
                              = Returned (bucket_start b)) /\
       (forall i b, In (i, b) df_agg ->
                    (exists o, In o df_filtered /\
                               bucket_service b = service o /\
                               floor_to time_window (hour o)
                               = Returned (bucket_start b)) /\
                    In (bucket_service b) selected_services /\
                    start_date <= bucket_start b <= end_date /\
                    d0 <= bucket_start b / ns_per_day <= d1)).
Proof.
  intros df d0 d1 tw am sel start_date end_date df_filtered _ _.
  split; [intro o; apply filter_rows_In|].
  split; [apply aggregate_returns|].
  intros df_agg H.
  rewrite aggregate_two_dates in H. cbv zeta in H.
  fold start_date end_date df_filtered in H.
  apply bind_Returned in H. destruct H as (col & Hcol & H).
  inversion H as [Hagg]; clear H.
  destruct (grouped_rows tw df_filtered col Hcol) as (f & Hf & Hcase & Hrows).
  rewrite Hrows. split.
  - intros o Ho.
    destruct (groupby_agg_covers (agg_map am)
                (map (fun o => mkGrouped o (f (hour o))) df_filtered)
                (mkGrouped o (f (hour o)))) as (i & b & Hin & Hk).
    { apply in_map_iff. exists o. auto. }
    exists i, b. unfold bucket_key, key_of in Hk. simpl in Hk.
    inversion Hk as [[Hs Hv]]. rewrite Hf.
    repeat split; congruence.
  - intros i b Hin.
    apply groupby_agg_row in Hin. destruct Hin as (r & Hr & Hk).
    apply in_map_iff in Hr. destruct Hr as (o & <- & Ho).
    unfold bucket_key, key_of in Hk. simpl in Hk.
    inversion Hk as [[Hs Hv]].
    pose proof (proj1 (filter_rows_In _ _ _ _ _) Ho) as (_ & Hw & Hsel).
    assert (Hb : start_date <= f (hour o) <= end_date).
    { destruct Hcase as [[_ ->]|[_ ->]]; [exact Hw|].
      apply floor_day_window. exact Hw. }
    split; [exists o; rewrite Hf; repeat split; congruence|].
    split; [exact Hsel|]. split; [exact Hb|].
    apply window_dates. exact Hb.
Qed.

Lemma aggregate_window_and_services_witness :
  day_2024_03_11 <= day_2024_03_11 + 1 /\
  ["checkout"; "payments"]%string <> [] /\
  aggregate sample_df sample_range Hour Maximum
    ["checkout"; "payments"]%string = Returned sample_agg /\
  forall i b, In (i, b) sample_agg ->
    In (bucket_service b) ["checkout"; "payments"]%string /\
    day_2024_03_11 <= bucket_start b / ns_per_day <= day_2024_03_11 + 1.
Proof.
  split; [discriminate|]. split; [discriminate|].
  split; [reflexivity|]. intros i b Hin.
  destruct (aggregate_window_and_services sample_df day_2024_03_11
              (day_2024_03_11 + 1) Hour Maximum
              ["checkout"; "payments"]%string)
    as (_ & _ & H); [discriminate | discriminate |].
  destruct (H sample_agg eq_refl) as (_ & Hb).
  destruct (Hb i b Hin) as (_ & Hs & _ & Hd). split; assumption.
Defined.

(** C5.  The group-by of lines 104-107 yields exactly one bucket for each
    (group, service) pair that occurs in the filtered frame and none for any
    other pair, and the bucket's two values are the reductions, by the one
    function chosen in the sidebar, of the tps column and of the pods column
    of the rows that carry the pair.  The chosen function is a maximum, a
    minimum or a mean of that column. *)
Theorem groupby_agg_one_bucket_per_pair :
  forall (agg_method : AggMethod) (df_filtered : list Grouped),
    let how := agg_map agg_method in
    let df_agg := groupby_agg how df_filtered in
    let bucket_keys := map (fun p => bucket_key (snd p)) df_agg in
    NoDup bucket_keys /\
    (forall k, In k bucket_keys <-> In k (map key_of df_filtered)) /\
    (forall i b, In (i, b) df_agg ->
       exists r rs,
         filter (fun r' => key_eqb (key_of r') (bucket_key b)) df_filtered
         = r :: rs /\
         tps_value b = reduce how (row_tps r) (map row_tps rs) /\
         pods_value b = reduce how (row_pods r) (map row_pods rs)) /\
    (forall x xs,
       match agg_method with
       | Maximum =>
           In (reduce how x xs) (x :: xs) /\
           forall y, In y (x :: xs) -> (y <= reduce how x xs)%Q
       | Minimum =>
           In (reduce how x xs) (x :: xs) /\
           forall y, In y (x :: xs) -> (reduce how x xs <= y)%Q
       | Average =>
           (reduce how x xs * inject_Z (Z.of_nat (List.length (x :: xs)))
            == fold_right Qplus 0 (x :: xs))%Q
       end).
Proof.
  intros am rows how df_agg bucket_keys.
  unfold bucket_keys, df_agg. rewrite groupby_agg_keys.
  split; [apply sorted_keys_NoDup, groupby_sorted|].
  split; [intro k; apply groupby_keys|].
  split; [intros i b; apply groupby_agg_In|].
  intros x xs. pose proof (reduce_spec how x xs) as R.
  unfold how in *. destruct am; exact R.
Qed.

(** ** The Hour window *)

Lemma filter_map_comm {A B : Type} (f : A -> B) (p : B -> bool)
  (l : list A) :
  filter p (map f l) = map f (filter (fun a => p (f a)) l).
Proof.
  induction l as [|a l IH]; simpl; [reflexivity|].
  rewrite IH. destruct (p (f a)); reflexivity.
Qed.

(** C8.  With the Hour window and any of the three statistics, a bucket whose
    (timestamp, service) pair is carried by exactly one filtered observation
    holds that observation's tps and pods values as they are; such a bucket
    is in the result. *)
Theorem hourly_single_observation_unchanged :
  forall (df : list Observation) (d0 d1 : date) (agg_method : AggMethod)
         (selected_services : list string) (o : Observation),
    let df_filtered :=
      filter_rows df (Timestamp_of_date d0)
        (Timestamp_of_date d1 + Timedelta_days 1 - Timedelta_seconds 1)
        selected_services in
    filter (fun o' => key_eqb (hour o', service o') (hour o, service o))
      df_filtered = [o] ->
    exists df_agg,
      aggregate df [d0; d1] Hour agg_method selected_services
      = Returned df_agg /\
      (exists i b, In (i, b) df_agg /\
                   bucket_start b = hour o /\
                   bucket_service b = service o) /\
      (forall i b, In (i, b) df_agg ->
                   bucket_start b = hour o ->
                   bucket_service b = service o ->
                   tps_value b = tps o /\ pods_value b = inject_Z (pods o)).
Proof.
  intros df d0 d1 am sel o df_filtered Hone.
  rewrite aggregate_two_dates. cbv zeta. fold df_filtered.
  unfold group_column, bind.
  rewrite <- (map_id (map hour df_filtered)).
  rewrite (assign_group_map (fun t => t)).
  eexists. split; [reflexivity|].
  assert (Ho : In o df_filtered).
  { assert (Hin : In o [o]) by (left; reflexivity).
    rewrite <- Hone in Hin. apply filter_In in Hin. tauto. }
  split.
  - destruct (groupby_agg_covers (agg_map am)
                (map (fun o => mkGrouped o (hour o)) df_filtered)
                (mkGrouped o (hour o))) as (i & b & Hin & Hk).
    { apply in_map_iff. exists o. auto. }
    exists i, b. unfold bucket_key, key_of in Hk. simpl in Hk.
    inversion Hk. auto.
  - intros i b Hin Hs Hv.
    apply groupby_agg_In in Hin. destruct Hin as (r & rs & Hf & Ht & Hp).
    rewrite filter_map_comm in Hf. unfold bucket_key, key_of in Hf.
    simpl in Hf. rewrite Hs, Hv, Hone in Hf. simpl in Hf.
    inversion Hf; subst r rs. rewrite Ht, Hp. simpl.
    rewrite !reduce_single. auto.
Qed.

Lemma hourly_single_observation_unchanged_witness :
  exists df_agg,
    aggregate sample_df sample_range Hour Average
      ["checkout"; "payments"]%string = Returned df_agg /\
    (exists i b, In (i, b) df_agg /\
                 bucket_start b = at_hour day_2024_03_11 2 /\
                 bucket_service b = "checkout"%string) /\
    (forall i b, In (i, b) df_agg ->
                 bucket_start b = at_hour day_2024_03_11 2 ->
                 bucket_service b = "checkout"%string ->
                 tps_value b = 15 # 1 /\ pods_value b = inject_Z 2).
Proof.
  apply (hourly_single_observation_unchanged sample_df day_2024_03_11
           (day_2024_03_11 + 1) Average ["checkout"; "payments"]%string
           (mkObservation (at_hour day_2024_03_11 2) "checkout" (15 # 1) 2)).
  reflexivity.
Defined.

(** ** The peak of a service *)

(** The scan of [idxmax] stops on the first row whose value no row exceeds;
    [max] returns that row's value. *)
Lemma argmax_from_spec (rest : Frame Q) :
  forall (pre : Frame Q) (best : nat * Q) (mid : Frame Q),
    (forall p, In p pre -> (snd p < snd best)%Q) ->
    (forall p, In p mid -> (snd p <= snd best)%Q) ->
    exists pre' w post',
      pre ++ best :: mid ++ rest = pre' ++ w :: post' /\
      argmax_from best rest = fst w /\
      fold_left Qmax (map snd rest) (snd best) = snd w /\
      (forall p, In p pre' -> (snd p < snd w)%Q) /\
      (forall p, In p post' -> (snd p <= snd w)%Q).
Proof.
  induction rest as [|p rest IH]; intros pre best mid Hpre Hmid.
  - exists pre, best, mid. rewrite app_nil_r. auto.
  - assert (Keep : (snd best ?= snd p)%Q <> Lt ->
      exists pre' w post',
        pre ++ best :: mid ++ p :: rest = pre' ++ w :: post' /\
        argmax_from best rest = fst w /\
        fold_left Qmax (map snd rest) (snd best) = snd w /\
        (forall q, In q pre' -> (snd q < snd w)%Q) /\
        (forall q, In q post' -> (snd q <= snd w)%Q)).
    { intro C.
      destruct (IH pre best (mid ++ [p]) Hpre) as (pre' & w & post' & E & R).
      - intros q Hq. apply in_app_or in Hq. destruct Hq as [Hq|[<-|[]]].
        + apply Hmid. exact Hq.
        + apply Qnot_lt_le. intro L. apply C. apply Qlt_alt. exact L.
      - exists pre', w, post'. split; [|exact R].
        rewrite <- E, <- app_assoc. reflexivity. }
    simpl. unfold Qmax at 2, GenericMinMax.gmax.
    destruct (snd best ?= snd p)%Q eqn:C.
    + apply Keep. discriminate.
    + apply Qlt_alt in C.
      destruct (IH (pre ++ best :: mid) p []) as (pre' & w & post' & E & R).
      * intros q Hq. apply in_app_or in Hq. destruct Hq as [Hq|[<-|Hq]].
        -- eapply Qlt_trans; [apply Hpre; exact Hq | exact C].
        -- exact C.
        -- eapply Qle_lt_trans; [apply Hmid; exact Hq | exact C].
      * intros q [].
      * exists pre', w, post'. split; [|exact R].
        rewrite <- E, <- app_assoc. reflexivity.
    + apply Keep. discriminate.
Qed.

Lemma idxmax_column {A : Type} (f : A -> Q) (df : Frame A) :
  df <> [] ->
  exists pre i a post,
    df = pre ++ (i, a) :: post /\
    idxmax (column f df) = Returned i /\
    Series_max (column f df) = Fin (f a) /\
    (forall p, In p pre -> (f (snd p) < f a)%Q) /\
    (forall p, In p post -> (f (snd p) <= f a)%Q).
Proof.
  destruct df as [|x l]; [congruence|]. intros _.
  destruct (argmax_from_spec (column f l) [] (fst x, f (snd x)) [])
    as (pre' & w & post' & E & Hi & Hm & Hpre & Hpost);
    [intros p []|intros p []|].
  simpl app in E. change ((fst x, f (snd x)) :: column f l)
    with (column f (x :: l)) in E.
  unfold column in E. apply map_eq_app in E.
  destruct E as (pre & tl & E & Ep & Et).
  apply map_eq_cons in Et. destruct Et as ([i a] & post & -> & Ew & Epost).
  exists pre, i, a, post. subst w pre' post'.
  split; [exact E|].
  split; [change (idxmax (column f (x :: l)))
            with (Returned (argmax_from (fst x, f (snd x)) (column f l)));
          rewrite Hi; reflexivity|].
  split; [change (Series_max (column f (x :: l)))
            with (Fin (fold_left Qmax (map snd (column f l))
                         (snd (fst x, f (snd x)))));
          rewrite Hm; reflexivity|].
  split.
  - intros p Hp. apply (Hpre (fst p, f (snd p))).
    apply in_map_iff. exists p. auto.
  - intros p Hp. apply (Hpost (fst p, f (snd p))).
    apply in_map_iff. exists p. auto.
Qed.

Lemma loc_unique_label {A : Type} (pre post : Frame A) (i : nat) (a : A) :
  NoDup (map fst (pre ++ (i, a) :: post)) ->
  loc (pre ++ (i, a) :: post) i = Returned a.
Proof.
  unfold loc. induction pre as [|[j c] pre IH]; simpl; intro N.
  - rewrite Nat.eqb_refl. reflexivity.
  - inversion N as [|? ? Hn N']; subst.
    destruct (Nat.eqb j i) eqn:E.
    + apply Nat.eqb_eq in E. subst j. exfalso. apply Hn.
      rewrite map_app. apply in_or_app. right. left. reflexivity.
    + apply IH. exact N'.
Qed.

Lemma NoDup_map_filter {A B : Type} (g : A -> B) (p : A -> bool)
  (l : list A) :
  NoDup (map g l) -> NoDup (map g (filter p l)).
Proof.
  induction l as [|a l IH]; simpl; intro N; [constructor|].
  inversion N as [|? ? Hn N']; subst.
  destruct (p a); [|apply IH; exact N'].
  simpl. constructor; [|apply IH; exact N'].
  intro Hin. apply Hn. apply in_map_iff in Hin.
  destruct Hin as (x & E & Hx). apply filter_In in Hx.
  apply in_map_iff. exists x. tauto.
Qed.

Lemma sorted_map_filter {A : Type} (g : A -> key) (p : A -> bool)
  (l : list A) :
  StronglySorted key_lt (map g l) ->
  StronglySorted key_lt (map g (filter p l)).
Proof.
  induction l as [|a l IH]; simpl; intro S; [constructor|].
  inversion S as [|? ? S' F]; subst.
  destruct (p a); [|apply IH; exact S'].
  simpl. constructor; [apply IH; exact S'|].
  rewrite Forall_forall in *. intros k Hk. apply F.
  apply in_map_iff in Hk. destruct Hk as (x & E & Hx).
  apply filter_In in Hx. apply in_map_iff. exists x. tauto.
Qed.

Lemma sorted_map_after {A : Type} (g : A -> key) (pre post : list A)
  (x : A) :
  StronglySorted key_lt (map g (pre ++ x :: post)) ->
  forall y, In y post -> key_lt (g x) (g y).
Proof.
  induction pre as [|a pre IH]; simpl; intros S y Hy.
  - inversion S as [|? ? S' F]; subst. rewrite Forall_forall in F.
    apply F. apply in_map. exact Hy.
  - inversion S as [|? ? S' F]; subst. apply IH; assumption.
Qed.

Lemma service_rows_In (df_agg : Frame AggregatedBucket) (s : string)
  (i : nat) (b : AggregatedBucket) :
  In (i, b) (service_rows df_agg s) <->
  In (i, b) df_agg /\ bucket_service b = s.
Proof.
  unfold service_rows. rewrite filter_In. simpl.
  rewrite String.eqb_eq. reflexivity.
Qed.

(** The rows of one service come in strictly ascending bucket start, with
    distinct labels. *)
Lemma service_rows_sorted (how : AggFunc) (rows : list Grouped)
  (s : string) :
  StronglySorted key_lt
    (map (fun p => bucket_key (snd p))
         (service_rows (groupby_agg how rows) s)) /\
  NoDup (map fst (service_rows (groupby_agg how rows) s)).
Proof.
  unfold service_rows. split.
  - apply sorted_map_filter. rewrite groupby_agg_keys.
    apply groupby_sorted.
  - apply NoDup_map_filter. apply reset_index_labels.
Qed.

(** C6.  For a service with at least one bucket in the aggregated frame and
    for either metric, the summary is computed; its peak is the largest
    value among the service's buckets, it is the value of a bucket that
    starts at the reported peak time, and every bucket of the service that
    ties for the peak starts at the peak time or later. *)
Theorem summarize_peak_is_earliest_maximum :
  forall (how : AggFunc) (df_filtered : list Grouped) (s : string)
         (m : Metric),
    let df_agg := groupby_agg how df_filtered in
    (exists i b, In (i, b) df_agg /\ bucket_service b = s) ->
    exists peak t avg,
      summarize (service_rows df_agg s) m
      = Returned (mkSummary (Fin peak) t avg) /\
      (forall i b, In (i, b) df_agg -> bucket_service b = s ->
                   (metric_value m b <= peak)%Q) /\
      (exists i b, In (i, b) df_agg /\ bucket_service b = s /\
                   metric_value m b = peak /\ bucket_start b = t) /\
      (forall i b, In (i, b) df_agg -> bucket_service b = s ->
                   (metric_value m b == peak)%Q -> t <= bucket_start b).
Proof.
  intros how rows s m df_agg (i0 & b0 & Hin0 & Hs0).
  assert (Hne : service_rows df_agg s <> []).
  { intro E. assert (H : In (i0, b0) (service_rows df_agg s))
      by (apply service_rows_In; auto).
    rewrite E in H. exact H. }
  destruct (idxmax_column (metric_value m) _ Hne)
    as (pre & i & b & post & E & Hidx & Hmax & Hpre & Hpost).
  destruct (service_rows_sorted how rows s) as [Hsorted Hlabels].
  fold df_agg in Hsorted, Hlabels.
  assert (Hb : In (i, b) df_agg /\ bucket_service b = s).
  { apply service_rows_In. rewrite E. apply in_or_app. right. left.
    reflexivity. }
  exists (metric_value m b), (bucket_start b),
    (Series_mean (column (metric_value m) (service_rows df_agg s))).
  split.
  - unfold summarize. cbv zeta. rewrite Hidx, Hmax. simpl bind.
    rewrite E at 1. rewrite loc_unique_label by (rewrite <- E; exact Hlabels).
    reflexivity.
  - split; [|split].
    + intros j c Hj Hc.
      assert (H : In (j, c) (service_rows df_agg s))
        by (apply service_rows_In; auto).
      rewrite E in H. apply in_app_or in H. destruct H as [H|[H|H]].
      * apply Qlt_le_weak. apply (Hpre _ H).
      * inversion H. apply Qle_refl.
      * apply (Hpost _ H).
    + exists i, b. tauto.
    + intros j c Hj Hc Htie.
      assert (H : In (j, c) (service_rows df_agg s))
        by (apply service_rows_In; auto).
      rewrite E in H. apply in_app_or in H. destruct H as [H|[H|H]].
      * exfalso. apply Hpre in H. simpl in H. rewrite Htie in H.
        exact (Qlt_irrefl _ H).
      * inversion H. lia.
      * rewrite E in Hsorted.
        pose proof (sorted_map_after _ _ _ _ Hsorted _ H) as L.
        simpl in L. unfold bucket_key in L.
        destruct Hb as [_ Hbs]. rewrite Hbs, Hc in L.
        apply key_lt_same_service in L. lia.
Qed.

Lemma sample_agg_has_checkout :
  exists i b, In (i, b) sample_agg /\ bucket_service b = "checkout"%string.
Proof.
  exists 0%nat, (mkBucket (at_hour day_2024_03_11 0) "checkout"
                   (10 # 1) (inject_Z 2)).
  split; [left; reflexivity | reflexivity].
Defined.

Lemma summarize_peak_is_earliest_maximum_witness :
  (exists i b, In (i, b) sample_agg /\ bucket_service b = "checkout"%string)
  /\
  exists peak t avg,
    summarize (service_rows sample_agg "checkout") TPS
    = Returned (mkSummary (Fin peak) t avg) /\
    (forall i b, In (i, b) sample_agg ->
                 bucket_service b = "checkout"%string ->
                 (metric_value TPS b <= peak)%Q) /\
    (exists i b, In (i, b) sample_agg /\
                 bucket_service b = "checkout"%string /\
                 metric_value TPS b = peak /\ bucket_start b = t) /\
    (forall i b, In (i, b) sample_agg ->
                 bucket_service b = "checkout"%string ->
                 (metric_value TPS b == peak)%Q -> t <= bucket_start b).
Proof.
  split; [exact sample_agg_has_checkout|].
  apply (summarize_peak_is_earliest_maximum agg_max
           (map (fun o => mkGrouped o (hour o)) sample_df)
           "checkout" TPS).
  exact sample_agg_has_checkout.
Defined.

(** Two buckets of the sample frame tie for the peak of [checkout]; the
    earlier one is reported. *)
Example sample_peak_tie :
  In (2%nat, mkBucket (at_hour day_2024_03_11 1) "checkout"
               (20 # 1) (inject_Z 3)) sample_agg /\
  In (5%nat, mkBucket (at_hour (day_2024_03_11 + 1) 5) "checkout"
               (20 # 1) (inject_Z 3)) sample_agg /\
  exists avg,
    summarize (service_rows sample_agg "checkout") TPS
    = Returned (mkSummary (Fin (20 # 1)) (at_hour day_2024_03_11 1) avg).
Proof.
  split; [|split].
  - vm_compute. tauto.
  - vm_compute. tauto.
  - eexists. vm_compute. reflexivity.
Qed.

(** ** A service without buckets *)

Lemma service_rows_absent (df_agg : Frame AggregatedBucket) (s : string) :
  (forall i b, In (i, b) df_agg -> bucket_service b <> s) ->
  service_rows df_agg s = [].
Proof.
  unfold service_rows. induction df_agg as [|[i b] l IH]; simpl; intro H;
    [reflexivity|].
  destruct (String.eqb (bucket_service b) s) eqn:E.
  - apply String.eqb_eq in E. exfalso. apply (H i b); auto.
  - apply IH. intros j c Hj. apply (H j c). auto.
Qed.

(** C7, as the code has it.  Nothing checks that the service has buckets.
    For a service with no bucket in the aggregated frame, the summary of
    either metric is not produced: [idxmax] on the empty column raises
    [ValueError].  The statistics row of such a service fails in the same
    way as soon as one metric is shown, and holds the service name alone
    when none is. *)
Theorem summarize_no_buckets_ValueError :
  forall (df_agg : Frame AggregatedBucket) (s : string),
    (forall i b, In (i, b) df_agg -> bucket_service b <> s) ->
    (forall m, summarize (service_rows df_agg s) m = Raised ValueError) /\
    (forall show_metrics,
        stat_row df_agg s show_metrics
        = if shown TPS show_metrics || shown Pods show_metrics
          then Raised ValueError
          else Returned (mkStatRow s None None)).
Proof.
  intros df_agg s H. pose proof (service_rows_absent df_agg s H) as E.
  split.
  - intro m. rewrite E. reflexivity.
  - intro show_metrics. unfold stat_row, summarize_if_shown. cbv zeta.
    rewrite E.
    destruct (shown TPS show_metrics), (shown Pods show_metrics);
      reflexivity.
Qed.

Lemma sample_agg_no_search :
  forall i b, In (i, b) sample_agg -> bucket_service b <> "search"%string.
Proof.
  intros i b H. vm_compute in H.
  repeat (destruct H as [H|H]; [inversion H; discriminate|]).
  contradiction.
Defined.

Lemma summarize_no_buckets_ValueError_witness :
  (forall i b, In (i, b) sample_agg -> bucket_service b <> "search"%string)
  /\
  (forall m, summarize (service_rows sample_agg "search") m
             = Raised ValueError) /\
  (forall show_metrics,
      stat_row sample_agg "search" show_metrics
      = if shown TPS show_metrics || shown Pods show_metrics
        then Raised ValueError
        else Returned (mkStatRow "search" None None)).
Proof.
  split; [exact sample_agg_no_search|].
  apply (summarize_no_buckets_ValueError sample_agg "search").
  exact sample_agg_no_search.
Defined.

(** C7 fails on the code: a service that is selected but has no row in the
    sample frame.  The failure is [ValueError], and with no metric shown
    there is no failure at all. *)
Lemma summarize_no_buckets_counterexample :
  service_rows sample_agg "search" = [] /\
  summarize (service_rows sample_agg "search") TPS = Raised ValueError /\
  summarize (service_rows sample_agg "search") TPS
  <> Raised NoDataForService /\
  stat_row sample_agg "search" []
  = Returned (mkStatRow "search" None None).
Proof. repeat split. discriminate. Qed.

(** ** The correlation of few buckets *)

(** C9, as the code has it.  Nothing counts the buckets before the
    correlation.  For a service with fewer than two buckets, [correlate]
    returns, and the coefficient it returns is NaN. *)
Theorem correlate_few_buckets_NaN :
  forall (df_agg : Frame AggregatedBucket) (s : string),
    (List.length (service_rows df_agg s) < 2)%nat ->
    correlate df_agg s = Returned CorrNaN.
Proof.
  intros df_agg s H. unfold correlate. cbv zeta.
  destruct (service_rows df_agg s) as [|x [|y l]]; simpl in *;
    [reflexivity | reflexivity | lia].
Qed.

Lemma correlate_few_buckets_NaN_witness :
  (List.length (service_rows sample_agg_second_day "checkout") < 2)%nat /\
  correlate sample_agg_second_day "checkout" = Returned CorrNaN.
Proof.
  split; [vm_compute; lia|].
  apply (correlate_few_buckets_NaN sample_agg_second_day "checkout").
  vm_compute. lia.
Defined.

(** C9 fails on the code: one bucket for the one selected service. *)
Lemma correlate_few_buckets_counterexample :
  aggregate sample_df [day_2024_03_11 + 1; day_2024_03_11 + 1] Hour Maximum
    ["checkout"%string] = Returned sample_agg_second_day /\
  List.length (service_rows sample_agg_second_day "checkout") = 1%nat /\
  correlate sample_agg_second_day "checkout" = Returned CorrNaN /\
  correlate sample_agg_second_day "checkout" <> Raised InsufficientData.
Proof. repeat split. discriminate. Qed.

(** With two buckets or more and values that vary, a coefficient is
    returned: here 2.5 / sqrt(275/36), about 0.905. *)
Example sample_correlation :
  match correlate sample_agg "checkout" with
  | Returned (CorrRatio c v) => (c == 5 # 2)%Q /\ (v == 275 # 36)%Q
  | _ => False
  end.
Proof. vm_compute. split; reflexivity. Qed.

(** * Further properties of the script *)

(** ** When the statistics rows can be computed *)

Lemma loc_label_present {A : Type} (df : Frame A) (i : nat) :
  In i (map fst df) -> exists a, loc df i = Returned a.
Proof.
  unfold loc. induction df as [|[j c] df IH]; simpl; intro H; [contradiction|].
  destruct (Nat.eqb j i) eqn:E; [exists c; reflexivity|].
  apply IH. destruct H as [H|H]; [|exact H].
  apply Nat.eqb_neq in E. contradiction.
Qed.

Lemma summarize_nonempty (service_data : Frame AggregatedBucket)
  (m : Metric) :
  service_data <> [] -> exists sm, summarize service_data m = Returned sm.
Proof.
  intro Hne.
  destruct (idxmax_column (metric_value m) service_data Hne)
    as (pre & i & b & post & E & Hidx & _).
  destruct (loc_label_present service_data i) as [a Ha].
  { rewrite E, map_app. apply in_or_app. right. left. reflexivity. }
  unfold summarize. cbv zeta. rewrite Hidx. simpl bind. rewrite Ha.
  eexists. reflexivity.
Qed.

Lemma service_rows_nonempty (df_agg : Frame AggregatedBucket) (s : string) :
  service_rows df_agg s <> [] <->
  exists i b, In (i, b) df_agg /\ bucket_service b = s.
Proof.
  split.
  - destruct (service_rows df_agg s) as [|[i b] l] eqn:E; [congruence|].
    intros _. exists i, b. apply service_rows_In. rewrite E. left.
    reflexivity.
  - intros (i & b & H) E. apply service_rows_In in H. rewrite E in H.
    exact H.
Qed.

Lemma has_bucket_dec (df_agg : Frame AggregatedBucket) (s : string) :
  has_bucket df_agg s \/ ~ has_bucket df_agg s.
Proof.
  unfold has_bucket.
  destruct (service_rows df_agg s) as [|p l] eqn:E.
  - right. intro H. apply service_rows_nonempty in H. auto.
  - left. apply service_rows_nonempty. rewrite E. discriminate.
Qed.

Lemma summarize_if_shown_cases (service_data : Frame AggregatedBucket)
  (m : Metric) (show_metrics : list Metric) :
  (shown m show_metrics = false /\
   summarize_if_shown service_data m show_metrics = Returned None) \/
  (shown m show_metrics = true /\ service_data = [] /\
   summarize_if_shown service_data m show_metrics = Raised ValueError) \/
  (shown m show_metrics = true /\ service_data <> [] /\
   exists sm,
     summarize_if_shown service_data m show_metrics = Returned (Some sm)).
Proof.
  unfold summarize_if_shown.
  destruct (shown m show_metrics); [right|left; auto].
  destruct service_data as [|p l] eqn:E.
  - left. auto.
  - right. split; [reflexivity|]. split; [discriminate|].
    destruct (summarize_nonempty (p :: l) m) as [sm Hsm]; [discriminate|].
    rewrite Hsm. exists sm. reflexivity.
Qed.

(** One statistics row: it is computed exactly when no metric is shown or
    the service has a bucket; it then names the service and carries a
    summary for exactly the metrics shown.  Otherwise [ValueError]. *)
Lemma stat_row_cases (df_agg : Frame AggregatedBucket) (s : string)
  (show_metrics : list Metric) :
  ((shown TPS show_metrics || shown Pods show_metrics = false \/
    has_bucket df_agg s) /\
   exists row,
     stat_row df_agg s show_metrics = Returned row /\
     stat_service row = s /\
     (stat_tps row <> None <-> shown TPS show_metrics = true) /\
     (stat_pods row <> None <-> shown Pods show_metrics = true)) \/
  (shown TPS show_metrics || shown Pods show_metrics = true /\
   ~ has_bucket df_agg s /\
   stat_row df_agg s show_metrics = Raised ValueError).
Proof.
  unfold stat_row. cbv zeta.
  pose proof (service_rows_nonempty df_agg s) as Hne.
  fold (has_bucket df_agg s) in Hne.
  destruct (summarize_if_shown_cases (service_rows df_agg s) TPS show_metrics)
    as [[St Et]|[(St & Nt & Et)|(St & Nt & smt & Et)]];
    destruct (summarize_if_shown_cases (service_rows df_agg s) Pods
                show_metrics)
      as [[Sp Ep]|[(Sp & Np & Ep)|(Sp & Np & smp & Ep)]];
    rewrite Et; simpl bind; try rewrite Ep; simpl bind; rewrite St, Sp;
    simpl orb.
  - left. split; [auto|]. eexists. split; [reflexivity|]. simpl.
    repeat split; intros; congruence.
  - right. split; [reflexivity|]. split; [|reflexivity].
    intro H. apply Hne in H. auto.
  - left. split; [right; apply Hne; exact Np|].
    eexists. split; [reflexivity|]. simpl.
    repeat split; intros; congruence.
  - right. split; [reflexivity|]. split; [|reflexivity].
    intro H. apply Hne in H. auto.
  - right. split; [reflexivity|]. split; [|reflexivity].
    intro H. apply Hne in H. auto.
  - right. split; [reflexivity|]. split; [|reflexivity].
    intro H. apply Hne in H. auto.
  - left. split; [right; apply Hne; exact Nt|].
    eexists. split; [reflexivity|]. simpl.
    repeat split; intros; congruence.
  - exfalso. auto.
  - left. split; [right; apply Hne; exact Nt|].
    eexists. split; [reflexivity|]. simpl.
    repeat split; intros; congruence.
Qed.

Lemma stats_outcome :
  forall (df_agg : Frame AggregatedBucket) (selected_services : list string)
         (show_metrics : list Metric),
    ((exists rows,
         stats df_agg selected_services show_metrics = Returned rows)
     <->
     (shown TPS show_metrics || shown Pods show_metrics = false \/
      forall s, In s selected_services -> has_bucket df_agg s)) /\
    (forall e, stats df_agg selected_services show_metrics = Raised e ->
               e = ValueError).
Proof.
  intros df_agg sel show.
  induction sel as [|s sel [IH1 IH2]]; simpl.
  - split; [|discriminate]. split; [|eexists; reflexivity].
    intros _. right. intros s [].
  - destruct (stat_row_cases df_agg s show)
      as [[Hok (row & E & _)]|(Hn & Hb & E)];
      rewrite E; simpl bind.
    + destruct (stats df_agg sel show) as [rows|e] eqn:Es; simpl bind.
      * split; [|discriminate]. split; [|eexists; reflexivity].
        intros _.
        destruct (proj1 IH1 (ex_intro _ rows eq_refl)) as [H|H]; [auto|].
        destruct Hok as [Hok|Hok]; [auto|].
        right. intros s' [<-|Hs']; auto.
      * split; [|intros e' H; inversion H; subst; apply IH2; reflexivity].
        split; [intros [rows H]; discriminate|].
        intros [H|H].
        -- destruct (proj2 IH1 (or_introl H)) as [rows Hr]. discriminate.
        -- destruct (proj2 IH1) as [rows Hr]; [|discriminate].
           right. intros s' Hs'. apply H. right. exact Hs'.
    + split; [|intros e H; inversion H; reflexivity].
      split; [intros [rows H]; discriminate|].
      intros [H|H]; [congruence|].
      exfalso. apply Hb. apply H. left. reflexivity.
Qed.

(** Lines 168-199.  The statistics loop is completed exactly when no metric
    is shown or every selected service has at least one bucket in the
    aggregated frame; the only way it fails is the [ValueError] of [idxmax]
    on an empty column. *)
Theorem stats_completes_iff :
  forall (df_agg : Frame AggregatedBucket) (selected_services : list string)
         (show_metrics : list Metric),
    ((exists rows,
         stats df_agg selected_services show_metrics = Returned rows)
     <->
     (shown TPS show_metrics || shown Pods show_metrics = false \/
      forall s, In s selected_services -> has_bucket df_agg s)) /\
    (forall e, stats df_agg selected_services show_metrics = Raised e ->
               e = ValueError).
Proof. exact stats_outcome. Qed.

(** When the statistics loop is completed there is one row per selected
    service, in the order of the selection, and each row carries a summary
    for exactly the metrics shown. *)
Theorem stats_rows_shape :
  forall (df_agg : Frame AggregatedBucket) (selected_services : list string)
         (show_metrics : list Metric) (rows : list StatRow),
    stats df_agg selected_services show_metrics = Returned rows ->
    map stat_service rows = selected_services /\
    forall row, In row rows ->
      (stat_tps row <> None <-> shown TPS show_metrics = true) /\
      (stat_pods row <> None <-> shown Pods show_metrics = true).
Proof.
  intros df_agg sel show. induction sel as [|s sel IH]; simpl; intros rows H.
  - inversion H. split; [reflexivity|]. intros row [].
  - apply bind_Returned in H. destruct H as (row & Er & H).
    apply bind_Returned in H. destruct H as (rest & Es & H).
    inversion H; subst rows. destruct (IH rest Es) as [IHn IHr].
    destruct (stat_row_cases df_agg s show)
      as [[_ (row' & E & Hs & Ht)]|(_ & _ & E)];
      rewrite E in Er; inversion Er; subst row'.
    split; [simpl; rewrite Hs, IHn; reflexivity|].
    intros r [<-|Hr]; [exact Ht | apply IHr; exact Hr].
Qed.

Lemma stats_rows_shape_witness :
  exists rows,
    stats sample_agg ["checkout"; "payments"]%string [TPS] = Returned rows /\
    map stat_service rows = ["checkout"; "payments"]%string /\
    forall row, In row rows ->
      (stat_tps row <> None <-> shown TPS [TPS] = true) /\
      (stat_pods row <> None <-> shown Pods [TPS] = true).
Proof.
  eexists. split; [vm_compute; reflexivity|].
  apply (stats_rows_shape sample_agg ["checkout"; "payments"]%string [TPS]).
  vm_compute. reflexivity.
Defined.

(** ** The filters, again *)

Lemma filter_ext_In {A : Type} (p q : A -> bool) (l : list A) :
  (forall a, In a l -> p a = q a) -> filter p l = filter q l.
Proof.
  induction l as [|a l IH]; simpl; intro H; [reflexivity|].
  rewrite (H a) by (left; reflexivity).
  rewrite IH by (intros b Hb; apply H; right; exact Hb). reflexivity.
Qed.

(** The selection matters only through the services that occur in the loaded
    frame: two selections that agree on those services give the same run of
    [aggregate].  So a selected service without rows in the frame, the order
    of the selection and repetitions in it change nothing. *)
Theorem aggregate_selection_extensional :
  forall (df : list Observation) (date_range : list date)
         (time_window : TimeWindow) (agg_method : AggMethod)
         (sel1 sel2 : list string),
    (forall o, In o df -> (In (service o) sel1 <-> In (service o) sel2)) ->
    aggregate df date_range time_window agg_method sel1
    = aggregate df date_range time_window agg_method sel2.
Proof.
  intros df dr tw am sel1 sel2 H. unfold aggregate.
  destruct (date_bounds dr) as [[s e]|ex]; simpl bind; [|reflexivity].
  assert (E : filter_rows df s e sel1 = filter_rows df s e sel2).
  { unfold filter_rows. cbv zeta. apply filter_ext_In.
    intros o Ho. apply filter_In in Ho. destruct Ho as [Ho _].
    specialize (H o Ho).
    destruct (isin (service o) sel1) eqn:E1;
      destruct (isin (service o) sel2) eqn:E2; try reflexivity.
    - apply isin_In in E1. apply H in E1. apply isin_In in E1. congruence.
    - apply isin_In in E2. apply H in E2. apply isin_In in E2. congruence. }
  simpl fst. simpl snd. rewrite E. reflexivity.
Qed.

Lemma aggregate_selection_extensional_witness :
  aggregate sample_df sample_range Day Average
    ["payments"; "search"; "payments"]%string
  = aggregate sample_df sample_range Day Average ["payments"%string].
Proof.
  apply (aggregate_selection_extensional sample_df sample_range Day Average
           ["payments"; "search"; "payments"]%string ["payments"%string]).
  intros o Ho. simpl in Ho.
  repeat (destruct Ho as [<-|Ho]; [simpl; split; intro H;
    repeat (destruct H as [H|H]; try discriminate H; auto)|]).
  contradiction.
Defined.

(** For a timestamp that is a whole number of seconds, as the hourly samples
    are, the date filter keeps the row exactly when its calendar day lies
    from the start date to the end date. *)
Theorem in_window_whole_seconds :
  forall (d0 d1 : date) (o : Observation),
    hour o mod ns_per_second = 0 ->
    (in_window (Timestamp_of_date d0)
       (Timestamp_of_date d1 + Timedelta_days 1 - Timedelta_seconds 1) o
     = true
     <-> d0 <= Timestamp_date (hour o) <= d1).
Proof.
  intros d0 d1 o Hs. unfold in_window, Timestamp_date.
  rewrite andb_true_iff, !Z.leb_le. split.
  - intro H. apply window_dates. exact H.
  - unfold Timestamp_of_date, Timedelta_days, Timedelta_seconds.
    rewrite ns_per_day_value, ns_per_second_value in *.
    intros [H0 H1].
    pose proof (Z.div_mod (hour o) 86400000000000) as D.
    pose proof (Z.mod_pos_bound (hour o) 86400000000000) as B.
    pose proof (Z.div_mod (hour o) 1000000000) as D'.
    rewrite Hs in D'.
    set (q := hour o / 86400000000000) in *.
    set (r := hour o mod 86400000000000) in *.
    set (k := hour o / 1000000000) in *.
    split; [nia|].
    assert (k < 86400 * (q + 1)) by nia.
    nia.
Qed.

Lemma in_window_whole_seconds_witness :
  at_hour day_2024_03_11 23 mod ns_per_second = 0 /\
  (in_window (Timestamp_of_date day_2024_03_11)
     (Timestamp_of_date day_2024_03_11 + Timedelta_days 1
      - Timedelta_seconds 1)
     (mkObservation (at_hour day_2024_03_11 23) "checkout" (1 # 1) 1) = true
   <-> day_2024_03_11
       <= Timestamp_date (at_hour day_2024_03_11 23) <= day_2024_03_11).
Proof.
  split; [reflexivity|].
  apply (in_window_whole_seconds day_2024_03_11 day_2024_03_11
           (mkObservation (at_hour day_2024_03_11 23) "checkout" (1 # 1) 1)).
  reflexivity.
Defined.

(** A timestamp in the last second of the end date is dropped although its
    calendar day is the end date: the window ends at 23:59:59 sharp. *)
Example in_window_last_second :
  let t := Timestamp_of_date (day_2024_03_11 + 1) - 1 in
  Timestamp_date t = day_2024_03_11 /\
  in_window (Timestamp_of_date day_2024_03_11)
    (Timestamp_of_date day_2024_03_11 + Timedelta_days 1
     - Timedelta_seconds 1)
    (mkObservation t "checkout" (1 # 1) 1) = false.
Proof. split; reflexivity. Qed.

(** ** The default controls *)

Lemma string_leb_compare (a b : string) :
  String.leb a b = true <-> String.compare a b <> Gt.
Proof.
  unfold String.leb. destruct (String.compare a b); split; intro H;
    try reflexivity; try discriminate; congruence.
Qed.

Lemma string_leb_false (a b : string) :
  String.leb a b = false -> String.compare b a = Lt.
Proof.
  unfold String.leb. rewrite (String.compare_antisym b a).
  destruct (String.compare a b); intro H; try discriminate. reflexivity.
Qed.

Lemma insert_sorted_In (x y : string) (l : list string) :
  In y (insert_sorted x l) <-> y = x \/ In y l.
Proof.
  induction l as [|z l IH]; simpl.
  - intuition auto.
  - destruct (String.leb x z); simpl; [intuition auto|].
    rewrite IH. intuition auto.
Qed.

Lemma sorted_In (l : list string) (y : string) : In y (sorted l) <-> In y l.
Proof.
  induction l as [|x l IH]; simpl; [reflexivity|].
  rewrite insert_sorted_In, IH. intuition auto.
Qed.

Lemma insert_sorted_strict (x : string) (l : list string) :
  ~ In x l ->
  StronglySorted string_lt l -> StronglySorted string_lt (insert_sorted x l).
Proof.
  induction l as [|z l IH]; simpl; intros Hn S.
  - repeat constructor.
  - inversion S as [|? ? S' F]; subst.
    destruct (String.leb x z) eqn:E.
    + assert (L : string_lt x z).
      { unfold string_lt. apply string_leb_compare in E.
        destruct (String.compare x z) eqn:C; try congruence.
        apply String_as_OT.cmp_eq in C. subst z. exfalso. apply Hn. auto. }
      constructor; [exact S|]. constructor; [exact L|].
      eapply Forall_impl; [|exact F].
      intros k Hk. eapply string_lt_trans; eauto.
    + constructor; [apply IH; auto|].
      apply Forall_forall. intros k Hk. apply insert_sorted_In in Hk.
      destruct Hk as [->|Hk].
      * apply string_leb_false. exact E.
      * rewrite Forall_forall in F. apply F. exact Hk.
Qed.

Lemma sorted_strict (l : list string) :
  NoDup l -> StronglySorted string_lt (sorted l).
Proof.
  induction 1 as [|x l Hn N IH]; simpl; [constructor|].
  apply insert_sorted_strict; [|exact IH].
  rewrite sorted_In. exact Hn.
Qed.

Lemma unique_from_spec (l seen : list string) :
  NoDup (unique_from seen l) /\
  forall x, In x (unique_from seen l) <-> In x l /\ ~ In x seen.
Proof.
  revert seen. induction l as [|y l IH]; intro seen; simpl.
  - split; [constructor | intuition auto].
  - destruct (isin y seen) eqn:E.
    + apply isin_In in E. destruct (IH seen) as [N M]. split; [exact N|].
      intro x. rewrite M. split; [tauto|].
      intros [[<-|Hx] Hs]; [contradiction | auto].
    + assert (Hy : ~ In y seen).
      { intro H. apply isin_In in H. congruence. }
      destruct (IH (y :: seen)) as [N M]. split.
      * constructor; [|exact N]. rewrite M. simpl. tauto.
      * intro x. simpl. rewrite M. simpl. split.
        -- intros [<-|[Hx Hs]]; [auto | tauto].
        -- intros [[<-|Hx] Hs]; [auto|].
           destruct (string_dec y x) as [->|Hne]; [auto|]. right. tauto.
Qed.

Lemma all_services_spec :
  forall df : list Observation,
    StronglySorted string_lt (all_services df) /\
    NoDup (all_services df) /\
    forall s, In s (all_services df) <-> exists o, In o df /\ service o = s.
Proof.
  intro df. unfold all_services, unique.
  destruct (unique_from_spec (map service df) []) as [N M].
  assert (S : StronglySorted string_lt
                (sorted (unique_from [] (map service df))))
    by (apply sorted_strict; exact N).
  split; [exact S|]. split.
  - clear M N. induction S as [|a l S IH F]; constructor; [|exact IH].
    intro Hin. rewrite Forall_forall in F. specialize (F a Hin).
    unfold string_lt in F. rewrite string_compare_refl in F. discriminate.
  - intro s. rewrite sorted_In, M, in_map_iff. simpl.
    split; [intros [(o & E & Ho) _]; exists o; auto|].
    intros (o & Ho & E). split; [exists o; auto | tauto].
Qed.

(** Lines 71 and 78.  The "All Services" selection lists every service of
    the loaded frame exactly once, in strictly ascending order, and nothing
    else. *)
Theorem all_services_sorted_distinct :
  forall df : list Observation,
    StronglySorted string_lt (all_services df) /\
    NoDup (all_services df) /\
    forall s, In s (all_services df) <-> exists o, In o df /\ service o = s.
Proof. exact all_services_spec. Qed.

Lemma fold_Zmin_le (xs : list Z) (x : Z) :
  forall y, In y (x :: xs) -> fold_left Z.min xs x <= y.
Proof.
  revert x. induction xs as [|a xs IH]; intros x y Hy; simpl.
  - destruct Hy as [<-|[]]. lia.
  - pose proof (IH (Z.min x a) (Z.min x a) (or_introl eq_refl)) as B.
    destruct Hy as [E|[E|Hy]]; [lia | lia | apply IH; right; exact Hy].
Qed.

Lemma fold_Zmax_ge (xs : list Z) (x : Z) :
  forall y, In y (x :: xs) -> y <= fold_left Z.max xs x.
Proof.
  revert x. induction xs as [|a xs IH]; intros x y Hy; simpl.
  - destruct Hy as [<-|[]]. lia.
  - pose proof (IH (Z.max x a) (Z.max x a) (or_introl eq_refl)) as B.
    destruct Hy as [E|[E|Hy]]; [lia | lia | apply IH; right; exact Hy].
Qed.

Lemma fold_Zmax_In (xs : list Z) (x : Z) :
  In (fold_left Z.max xs x) (x :: xs).
Proof.
  revert x. induction xs as [|a xs IH]; intro x; simpl; [auto|].
  destruct (IH (Z.max x a)) as [E|H]; [|auto].
  rewrite <- E. destruct (Z.max_spec x a) as [[_ ->]|[_ ->]]; auto.
Qed.

Lemma filter_all {A : Type} (p : A -> bool) (l : list A) :
  (forall a, In a l -> p a = true) -> filter p l = l.
Proof.
  induction l as [|a l IH]; simpl; intro H; [reflexivity|].
  rewrite (H a) by (left; reflexivity).
  rewrite IH by (intros b Hb; apply H; right; exact Hb). reflexivity.
Qed.

(** Lines 22-37 and 78-86.  For a loaded frame whose timestamps are whole
    seconds, the default date range exists as soon as the frame has a row,
    and with it and the "All Services" selection the two filters keep every
    row of the frame. *)
Theorem default_controls_keep_every_row :
  forall (df : list Observation) (picked : list string),
    df <> [] ->
    (forall o, In o df -> hour o mod ns_per_second = 0) ->
    exists d0 d1,
      default_date_range df = Some [d0; d1] /\
      filter_rows df (Timestamp_of_date d0)
        (Timestamp_of_date d1 + Timedelta_days 1 - Timedelta_seconds 1)
        (service_selection AllServices df picked) = df.
Proof.
  intros df picked Hne Hs. destruct df as [|o0 l]; [congruence|].
  unfold default_date_range, hour_min, hour_max.
  eexists. eexists. split; [reflexivity|].
  set (lo := fold_left Z.min (map hour l) (hour o0)).
  set (hi := fold_left Z.max (map hour l) (hour o0)).
  assert (Hhi : exists o, In o (o0 :: l) /\ hour o = hi).
  { pose proof (fold_Zmax_In (map hour l) (hour o0)) as H. fold hi in H.
    change (hour o0 :: map hour l) with (map hour (o0 :: l)) in H.
    apply in_map_iff in H. destruct H as (o & E & Ho). exists o. auto. }
  unfold filter_rows. cbv zeta.
  rewrite (filter_all (in_window _ _)).
  - apply filter_all. intros o Ho. apply isin_In. simpl.
    apply all_services_spec. exists o. auto.
  - intros o Ho.
    assert (Hlo : lo <= hour o).
    { apply fold_Zmin_le.
      change (hour o0 :: map hour l) with (map hour (o0 :: l)).
      apply in_map. exact Ho. }
    assert (Hle : hour o <= hi).
    { apply fold_Zmax_ge.
      change (hour o0 :: map hour l) with (map hour (o0 :: l)).
      apply in_map. exact Ho. }
    destruct Hhi as (om & Hom & Em). pose proof (Hs om Hom) as Hm.
    rewrite Em in Hm.
    unfold in_window. apply andb_true_iff. rewrite !Z.leb_le.
    unfold Timestamp_of_date, Timedelta_days, Timedelta_seconds,
      Timestamp_date.
    rewrite ns_per_day_value, ns_per_second_value in *.
    pose proof (Z.div_mod lo 86400000000000) as Dl.
    pose proof (Z.mod_pos_bound lo 86400000000000) as Bl.
    pose proof (Z.div_mod hi 86400000000000) as Dh.
    pose proof (Z.mod_pos_bound hi 86400000000000) as Bh.
    pose proof (Z.div_mod hi 1000000000) as Dk. rewrite Hm in Dk.
    set (ql := lo / 86400000000000) in *.
    set (qh := hi / 86400000000000) in *.
    set (k := hi / 1000000000) in *.
    split; [nia|].
    assert (k < 86400 * (qh + 1)) by nia.
    nia.
Qed.

Lemma default_controls_keep_every_row_witness :
  sample_df <> [] /\
  (forall o, In o sample_df -> hour o mod ns_per_second = 0) /\
  exists d0 d1,
    default_date_range sample_df = Some [d0; d1] /\
    filter_rows sample_df (Timestamp_of_date d0)
      (Timestamp_of_date d1 + Timedelta_days 1 - Timedelta_seconds 1)
      (service_selection AllServices sample_df []) = sample_df.
Proof.
  assert (H : forall o, In o sample_df -> hour o mod ns_per_second = 0).
  { intros o Ho. simpl in Ho.
    repeat (destruct Ho as [<-|Ho]; [reflexivity|]). contradiction. }
  split; [discriminate|]. split; [exact H|].
  apply (default_controls_keep_every_row sample_df []);
    [discriminate | exact H].
Defined.

Example sample_defaults :
  default_date_range sample_df = Some sample_range /\
  all_services sample_df = ["checkout"; "payments"]%string.
Proof. split; reflexivity. Qed.

(** ** The shape of the aggregated frame *)

Lemma aggregate_is_groupby (df : list Observation) (date_range : list date)
  (time_window : TimeWindow) (agg_method : AggMethod)
  (selected_services : list string) (df_agg : Frame AggregatedBucket) :
  aggregate df date_range time_window agg_method selected_services
  = Returned df_agg ->
  exists rows, df_agg = groupby_agg (agg_map agg_method) rows.
Proof.
  unfold aggregate. intro H.
  apply bind_Returned in H. destruct H as (bounds & _ & H).
  apply bind_Returned in H. destruct H as (col & _ & H).
  inversion H. eexists. reflexivity.
Qed.

Lemma reset_index_length {A : Type} (l : list A) :
  List.length (reset_index l) = List.length l.
Proof.
  rewrite <- (length_map snd (reset_index l)), reset_index_rows.
  reflexivity.
Qed.

(** Lines 104-107.  Whatever [aggregate] returns is labelled 0, 1, 2, ... and
    its rows are in strictly ascending order of (bucket start, service): by
    bucket start first, by service name among equal bucket starts. *)
Theorem aggregate_sorted_and_labelled :
  forall (df : list Observation) (date_range : list date)
         (time_window : TimeWindow) (agg_method : AggMethod)
         (selected_services : list string)
         (df_agg : Frame AggregatedBucket),
    aggregate df date_range time_window agg_method selected_services
    = Returned df_agg ->
    map fst df_agg = seq 0 (List.length df_agg) /\
    StronglySorted key_lt (map (fun p => bucket_key (snd p)) df_agg).
Proof.
  intros df dr tw am sel df_agg H.
  apply aggregate_is_groupby in H. destruct H as [rows ->]. split.
  - unfold groupby_agg. rewrite reset_index_length.
    unfold reset_index. apply combine_seq_fst.
  - rewrite groupby_agg_keys. apply groupby_sorted.
Qed.

Lemma aggregate_sorted_and_labelled_witness :
  map fst sample_agg = seq 0 (List.length sample_agg) /\
  StronglySorted key_lt (map (fun p => bucket_key (snd p)) sample_agg).
Proof.
  apply (aggregate_sorted_and_labelled sample_df sample_range Hour Maximum
           ["checkout"; "payments"]%string sample_agg).
  reflexivity.
Defined.

(** The rows a bucket is computed from. *)
Lemma groupby_agg_members (how : AggFunc) (rows : list Grouped) (i : nat)
  (b : AggregatedBucket) :
  In (i, b) (groupby_agg how rows) ->
  exists r rs,
    tps_value b = reduce how (row_tps r) (map row_tps rs) /\
    pods_value b = reduce how (row_pods r) (map row_pods rs) /\
    filter (fun r' => key_eqb (key_of r') (bucket_key b)) rows = r :: rs /\
    forall r', In r' (r :: rs) <-> In r' rows /\ key_of r' = bucket_key b.
Proof.
  intro H. apply groupby_agg_In in H. destruct H as (r & rs & F & Ht & Hp).
  exists r, rs. repeat split; auto.
  - rewrite <- F in H. apply filter_In in H. tauto.
  - rewrite <- F in H. apply filter_In in H. apply key_eqb_eq. tauto.
  - intros [Hin Hk]. rewrite <- F. apply filter_In. split; [exact Hin|].
    apply key_eqb_eq. exact Hk.
Qed.

Lemma filter_unique_key {A : Type} (g : A -> key) (l : list A) (a : A) :
  NoDup (map g l) -> In a l ->
  filter (fun x => key_eqb (g x) (g a)) l = [a].
Proof.
  induction l as [|x l IH]; simpl; intros N H; [contradiction|].
  inversion N as [|? ? Hn N']; subst. destruct H as [->|H].
  - rewrite key_eqb_refl. f_equal.
    assert (E : forall y, In y l -> key_eqb (g y) (g a) = false).
    { intros y Hy. apply key_eqb_neq. intro E. apply Hn. rewrite <- E.
      apply in_map. exact Hy. }
    clear -E. induction l as [|y l IH]; simpl; [reflexivity|].
    rewrite (E y) by (left; reflexivity).
    apply IH. intros z Hz. apply E. right. exact Hz.
  - rewrite key_eqb_neq; [apply IH; assumption|].
    intro E. apply Hn. rewrite E. apply in_map. exact H.
Qed.

(** Lines 93-107.  When no two rows of the loaded frame share their
    (timestamp, service) pair, the Hour window changes nothing but the order:
    [aggregate] returns as many buckets as the filters keep rows, and every
    kept row is there as a bucket, with its timestamp, service, tps and pods,
    for each of the three statistics. *)
Theorem hourly_aggregate_is_the_filtered_frame :
  forall (df : list Observation) (d0 d1 : date) (agg_method : AggMethod)
         (selected_services : list string),
    NoDup (map (fun o => (hour o, service o)) df) ->
    let df_filtered :=
      filter_rows df (Timestamp_of_date d0)
        (Timestamp_of_date d1 + Timedelta_days 1 - Timedelta_seconds 1)
        selected_services in
    exists df_agg,
      aggregate df [d0; d1] Hour agg_method selected_services
      = Returned df_agg /\
      List.length df_agg = List.length df_filtered /\
      forall o, In o df_filtered ->
        exists i,
          In (i, mkBucket (hour o) (service o) (tps o) (inject_Z (pods o)))
             df_agg.
Proof.
  intros df d0 d1 am sel N df_filtered.
  rewrite aggregate_two_dates. cbv zeta. fold df_filtered.
  unfold group_column, bind.
  rewrite <- (map_id (map hour df_filtered)).
  rewrite (assign_group_map (fun t => t)).
  set (rows := map (fun o => mkGrouped o (hour o)) df_filtered).
  assert (Nk : NoDup (map key_of rows)).
  { unfold rows. rewrite map_map. unfold key_of. simpl.
    unfold df_filtered, filter_rows. cbv zeta.
    apply NoDup_map_filter, NoDup_map_filter. exact N. }
  eexists. split; [reflexivity|]. split.
  - unfold groupby_agg. rewrite reset_index_length, length_map.
    transitivity (List.length (map key_of rows));
      [|unfold rows; rewrite !length_map; reflexivity].
    rewrite <- (length_map fst (groupby rows)).
    apply Permutation_length. apply NoDup_Permutation.
    + apply sorted_keys_NoDup, groupby_sorted.
    + exact Nk.
    + intro k. apply groupby_keys.
  - intros o Ho.
    assert (Hr : In (mkGrouped o (hour o)) rows)
      by (apply in_map_iff; exists o; auto).
    destruct (groupby_agg_covers (agg_map am) rows _ Hr)
      as (i & b & Hin & Hk).
    exists i.
    destruct (groupby_agg_members _ _ _ _ Hin)
      as (r & rs & Ht & Hp & F & _).
    rewrite Hk in F. rewrite (filter_unique_key key_of rows _ Nk Hr) in F.
    inversion F; subst r rs. simpl in Ht, Hp.
    rewrite reduce_single in Ht, Hp.
    unfold bucket_key, key_of in Hk. simpl in Hk. inversion Hk.
    destruct b as [bs bv bt bp]. simpl in *. subst. exact Hin.
Qed.

Lemma hourly_aggregate_is_the_filtered_frame_witness :
  NoDup (map (fun o => (hour o, service o)) sample_df) /\
  exists df_agg,
    aggregate sample_df sample_range Hour Average ["checkout"%string]
    = Returned df_agg /\
    List.length df_agg
    = List.length
        (filter_rows sample_df (Timestamp_of_date day_2024_03_11)
           (Timestamp_of_date (day_2024_03_11 + 1) + Timedelta_days 1
            - Timedelta_seconds 1) ["checkout"%string]) /\
    forall o,
      In o (filter_rows sample_df (Timestamp_of_date day_2024_03_11)
              (Timestamp_of_date (day_2024_03_11 + 1) + Timedelta_days 1
               - Timedelta_seconds 1) ["checkout"%string]) ->
      exists i,
        In (i, mkBucket (hour o) (service o) (tps o) (inject_Z (pods o)))
           df_agg.
Proof.
  assert (N : NoDup (map (fun o => (hour o, service o)) sample_df)).
  { apply (NoDup_map_inv (fun k : Z * string => k)).
    rewrite map_id. simpl.
    repeat (constructor;
            [simpl; intro H;
             repeat (destruct H as [H|H]; [discriminate H|]); exact H|]).
    constructor. }
  split; [exact N|].
  apply (hourly_aggregate_is_the_filtered_frame sample_df day_2024_03_11
           (day_2024_03_11 + 1) Average ["checkout"%string] N).
Defined.

(** ** Bounds on the bucket values *)








(** Lines 89-107.  With the Maximum statistic no observation exceeds its
    bucket, and with the Minimum statistic none is below it: for every
    observation the filters keep and the bucket that holds it, the
    observation's tps and pods are bounded by the bucket's values. *)
Theorem aggregate_extremes_bound_observations :
  forall (df : list Observation) (d0 d1 : date) (time_window : TimeWindow)
         (agg_method : AggMethod) (selected_services : list string)
         (df_agg : Frame AggregatedBucket),
    aggregate df [d0; d1] time_window agg_method selected_services
    = Returned df_agg ->
    forall i b o,
      In (i, b) df_agg ->
      In o (filter_rows df (Timestamp_of_date d0)
              (Timestamp_of_date d1 + Timedelta_days 1 - Timedelta_seconds 1)
              selected_services) ->
      service o = bucket_service b ->
      floor_to time_window (hour o) = Returned (bucket_start b) ->
      match agg_method with
      | Maximum => (tps o <= tps_value b)%Q /\
                   (inject_Z (pods o) <= pods_value b)%Q
      | Minimum => (tps_value b <= tps o)%Q /\
                   (pods_value b <= inject_Z (pods o))%Q
      | Average => True
      end.
Proof.
  intros df d0 d1 tw am sel df_agg H i b o Hin Ho Hs Hf.
  rewrite aggregate_two_dates in H. cbv zeta in H.
  set (df_filtered := filter_rows df _ _ sel) in *.
  apply bind_Returned in H. destruct H as (col & Hcol & H).
  injection H as Hagg. subst df_agg.
  destruct (grouped_rows tw _ col Hcol) as (f & Hfl & _ & Hrows).
  rewrite Hrows in Hin.
  destruct (groupby_agg_members _ _ _ _ Hin)
    as (r & rs & Ht & Hp & _ & Hmem).
  assert (Hr : In (mkGrouped o (f (hour o))) (r :: rs)).
  { apply Hmem. split; [apply in_map_iff; exists o; auto|].
    unfold key_of, bucket_key. simpl. rewrite Hfl in Hf.
    inversion Hf. congruence. }
  assert (Xt : In (tps o) (row_tps r :: map row_tps rs)).
  { change (row_tps r :: map row_tps rs) with (map row_tps (r :: rs)).
    apply in_map_iff. eexists. split; [|exact Hr]. reflexivity. }
  assert (Xp : In (inject_Z (pods o)) (row_pods r :: map row_pods rs)).
  { change (row_pods r :: map row_pods rs) with (map row_pods (r :: rs)).
    apply in_map_iff. eexists. split; [|exact Hr]. reflexivity. }
  rewrite Ht, Hp. destruct am; simpl agg_map; [| exact I |].
  - split; [apply (proj2 (fold_Qmax_spec _ _)) |
            apply (proj2 (fold_Qmax_spec _ _))]; assumption.
  - split; [apply (proj2 (fold_Qmin_spec _ _)) |
            apply (proj2 (fold_Qmin_spec _ _))]; assumption.
Qed.

Lemma aggregate_extremes_bound_observations_witness :
  aggregate sample_df sample_range Hour Maximum
    ["checkout"; "payments"]%string = Returned sample_agg /\
  forall i b o,
    In (i, b) sample_agg ->
    In o (filter_rows sample_df (Timestamp_of_date day_2024_03_11)
            (Timestamp_of_date (day_2024_03_11 + 1) + Timedelta_days 1
             - Timedelta_seconds 1) ["checkout"; "payments"]%string) ->
    service o = bucket_service b ->
    floor_to Hour (hour o) = Returned (bucket_start b) ->
    (tps o <= tps_value b)%Q /\ (inject_Z (pods o) <= pods_value b)%Q.
Proof.
  split; [reflexivity|].
  apply (aggregate_extremes_bound_observations sample_df day_2024_03_11
           (day_2024_03_11 + 1) Hour Maximum
           ["checkout"; "payments"]%string sample_agg).
  reflexivity.
Defined.

(** ** The average of a summary *)



(** ** The correlation coefficient *)










(** ** The run as a whole *)

(** The aggregated frame has a row for a service exactly when the filters
    keep an observation of that service. *)
Lemma aggregate_has_bucket (df : list Observation) (d0 d1 : date)
  (time_window : TimeWindow) (agg_method : AggMethod)
  (selected_services : list string) (df_agg : Frame AggregatedBucket)
  (s : string) :
  aggregate df [d0; d1] time_window agg_method selected_services
  = Returned df_agg ->
  (has_bucket df_agg s <->
   exists o,
     In o (filter_rows df (Timestamp_of_date d0)
             (Timestamp_of_date d1 + Timedelta_days 1 - Timedelta_seconds 1)
             selected_services) /\
     service o = s).
Proof.
  intro H. rewrite aggregate_two_dates in H. cbv zeta in H.
  set (df_filtered := filter_rows df _ _ selected_services) in *.
  apply bind_Returned in H. destruct H as (col & Hcol & H).
  injection H as Hagg. subst df_agg.
  destruct (grouped_rows time_window _ col Hcol) as (f & _ & _ & Hrows).
  rewrite Hrows. unfold has_bucket. split.
  - intros (i & b & Hin & Hs). apply groupby_agg_row in Hin.
    destruct Hin as (r & Hr & Hk). apply in_map_iff in Hr.
    destruct Hr as (o & <- & Ho). exists o. split; [exact Ho|].
    unfold key_of, bucket_key in Hk. simpl in Hk. congruence.
  - intros (o & Ho & Hs).
    destruct (groupby_agg_covers (agg_map agg_method)
                (map (fun o => mkGrouped o (f (hour o))) df_filtered)
                (mkGrouped o (f (hour o)))) as (i & b & Hin & Hk).
    { apply in_map_iff. exists o. auto. }
    exists i, b. split; [exact Hin|].
    unfold key_of, bucket_key in Hk. simpl in Hk. congruence.
Qed.

(** Lines 80-199.  With a two-date range, the computations from the filters
    to the statistics rows all succeed exactly when the window is not Week
    and, unless no metric is shown, every selected service has an observation
    of the loaded frame inside the date window.  A selected service without
    data in the window ends the run. *)
Theorem run_completes_iff :
  forall (df : list Observation) (d0 d1 : date) (time_window : TimeWindow)
         (agg_method : AggMethod) (show_metrics : list Metric)
         (selected_services : list string),
    (exists d,
        run df [d0; d1] time_window agg_method show_metrics
          selected_services = Returned d)
    <->
    (time_window <> Week /\
     (shown TPS show_metrics || shown Pods show_metrics = false \/
      forall s, In s selected_services ->
        exists o,
          In o df /\ service o = s /\
          Timestamp_of_date d0 <= hour o
          <= Timestamp_of_date d1 + Timedelta_days 1 - Timedelta_seconds 1)).
Proof.
  intros df d0 d1 tw am show sel. unfold run.
  destruct (aggregate df [d0; d1] tw am sel) as [df_agg|e] eqn:Ea;
    simpl bind.
  - assert (Htw : tw <> Week).
    { intros ->. rewrite aggregate_Week in Ea. discriminate. }
    destruct (stats_outcome df_agg sel show) as [Hiff _].
    assert (Hb : (forall s, In s sel -> has_bucket df_agg s) <->
                 (forall s, In s sel ->
                    exists o, In o df /\ service o = s /\
                      Timestamp_of_date d0 <= hour o
                      <= Timestamp_of_date d1 + Timedelta_days 1
                         - Timedelta_seconds 1)).
    { split; intros H s Hs.
      - apply (aggregate_has_bucket _ _ _ _ _ _ _ s Ea) in H; [|exact Hs].
        destruct H as (o & Ho & Eo). apply filter_rows_In in Ho.
        exists o. tauto.
      - apply (aggregate_has_bucket _ _ _ _ _ _ _ s Ea).
        destruct (H s Hs) as (o & Ho & Eo & Hw). exists o.
        split; [|exact Eo]. apply filter_rows_In. subst s. tauto. }
    split.
    + intros [d Hd].
      destruct (stats df_agg sel show) as [rows|e] eqn:Es; [|discriminate].
      split; [exact Htw|].
      destruct (proj1 Hiff (ex_intro _ rows eq_refl)) as [H|H]; [auto|].
      right. apply Hb. exact H.
    + intros [_ H].
      destruct (proj2 Hiff) as [rows Hr].
      { destruct H as [H|H]; [auto | right; apply Hb; exact H]. }
      rewrite Hr. eexists. reflexivity.
  - split; [intros [d Hd]; discriminate|].
    intros [Htw _]. destruct (aggregate_returns df d0 d1 tw am sel Htw)
      as [df_agg Hr].
    rewrite Hr in Ea. discriminate.
Qed.

(** Lines 80-199.  However the run ends abnormally, it ends with [IndexError]
    or with [ValueError]. *)
Theorem run_failures :
  forall (df : list Observation) (date_range : list date)
         (time_window : TimeWindow) (agg_method : AggMethod)
         (show_metrics : list Metric) (selected_services : list string)
         (e : exn),
    run df date_range time_window agg_method show_metrics selected_services
    = Raised e ->
    e = IndexError \/ e = ValueError.
Proof.
  intros df dr tw am show sel e. unfold run.
  destruct (aggregate df dr tw am sel) as [df_agg|e'] eqn:Ea; simpl bind.
  - destruct (stats df_agg sel show) as [rows|e'] eqn:Es; simpl bind;
      [discriminate|].
    intro H. injection H as <-. right.
    apply (proj2 (stats_outcome df_agg sel show)). exact Es.
  - intro H. injection H as <-. apply (aggregate_exn _ _ _ _ _ _ Ea).
Qed.

Lemma run_failures_witness :
  IndexError = IndexError \/ IndexError = ValueError.
Proof.
  apply (run_failures sample_df [day_2024_03_11] Hour Maximum [TPS]
           ["checkout"%string] IndexError).
  reflexivity.
Defined.

(** A selected service with no row in the window ends the sample run. *)
Example sample_run_without_data :
  run sample_df [day_2024_03_11 + 1; day_2024_03_11 + 1] Hour Maximum [TPS]
    ["checkout"; "payments"]%string = Raised ValueError.
Proof. reflexivity. Qed.

(** ** The traces of the line chart *)

Lemma shown_In (m : Metric) (show_metrics : list Metric) :
  shown m show_metrics = true <-> In m show_metrics.
Proof.
  unfold shown. rewrite existsb_exists. split.
  - intros (x & Hx & E). destruct m, x; try discriminate; exact Hx.
  - intro H. exists m. split; [exact H | destruct m; reflexivity].
Qed.

(** A selection of distinct metrics has as many entries as metrics shown. *)
Lemma distinct_metrics_length (show_metrics : list Metric) :
  NoDup show_metrics ->
  List.length show_metrics
  = ((if shown TPS show_metrics then 1 else 0)
     + (if shown Pods show_metrics then 1 else 0))%nat.
Proof.
  intro N.
  destruct show_metrics as [|a [|b [|c l]]].
  - reflexivity.
  - destruct a; reflexivity.
  - inversion N as [|? ? Hn _]; subst.
    destruct a, b; try reflexivity; exfalso; apply Hn; left; reflexivity.
  - exfalso. inversion N as [|? ? Ha N1]; subst.
    inversion N1 as [|? ? Hb _]; subst. simpl in Ha, Hb.
    destruct a, b, c; tauto.
Qed.

Lemma service_traces_length (df_agg : Frame AggregatedBucket)
  (show_metrics : list Metric) (s : string) :
  List.length (service_traces df_agg show_metrics s)
  = ((if shown TPS show_metrics then 1 else 0)
     + (if shown Pods show_metrics then 1 else 0))%nat.
Proof.
  unfold service_traces. cbv zeta. rewrite length_app.
  destruct (shown TPS show_metrics), (shown Pods show_metrics); reflexivity.
Qed.

(** Lines 109-161.  When the metrics shown are distinct, as the multiselect
    returns them, the chart has one trace per selected service and metric
    shown; the secondary axis is used exactly when both metrics are shown;
    TPS traces (solid lines) are on the primary axis, and Pods traces
    (dotted lines) are on the axis that is given the title of the pod
    counts. *)
Theorem traces_axes :
  forall (df_agg : Frame AggregatedBucket) (show_metrics : list Metric)
         (selected_services : list string),
    NoDup show_metrics ->
    List.length (traces df_agg show_metrics selected_services)
    = (List.length selected_services * List.length show_metrics)%nat /\
    (use_secondary_y show_metrics = true <->
     shown TPS show_metrics = true /\ shown Pods show_metrics = true) /\
    forall tr, In tr (traces df_agg show_metrics selected_services) ->
      (trace_dash tr = None -> trace_secondary_y tr = false) /\
      (trace_dash tr <> None ->
       pods_title_axis show_metrics = Some (trace_secondary_y tr)).
Proof.
  intros df_agg show sel N.
  pose proof (distinct_metrics_length show N) as L.
  assert (U : use_secondary_y show = true <->
              shown TPS show = true /\ shown Pods show = true).
  { unfold use_secondary_y. rewrite Nat.ltb_lt, L.
    destruct (shown TPS show), (shown Pods show); simpl; split;
      try lia; try tauto; intros [? ?]; discriminate. }
  split; [|split; [exact U|]].
  - unfold traces. induction sel as [|s sel IH]; simpl; [reflexivity|].
    rewrite length_app, IH, service_traces_length, L. reflexivity.
  - intros tr Htr. unfold traces in Htr. apply in_flat_map in Htr.
    destruct Htr as (s & _ & Htr). unfold service_traces in Htr.
    cbv zeta in Htr. apply in_app_or in Htr. unfold pods_title_axis.
    destruct Htr as [Htr|Htr].
    + destruct (shown TPS show); [|contradiction].
      destruct Htr as [<-|[]]. simpl. split; [reflexivity | congruence].
    + destruct (shown Pods show) eqn:Sp; [|contradiction].
      destruct Htr as [<-|[]]. simpl. split; [discriminate|]. intros _.
      destruct (shown TPS show) eqn:St; [reflexivity|].
      destruct (use_secondary_y show); [|reflexivity].
      destruct (proj1 U eq_refl). discriminate.
Qed.

Lemma traces_axes_witness :
  NoDup [TPS; Pods] /\
  List.length (traces sample_agg [TPS; Pods] ["checkout"; "payments"]%string)
  = (List.length ["checkout"; "payments"]%string
     * List.length [TPS; Pods])%nat /\
  (use_secondary_y [TPS; Pods] = true <->
   shown TPS [TPS; Pods] = true /\ shown Pods [TPS; Pods] = true) /\
  forall tr,
    In tr (traces sample_agg [TPS; Pods] ["checkout"; "payments"]%string) ->
    (trace_dash tr = None -> trace_secondary_y tr = false) /\
    (trace_dash tr <> None ->
     pods_title_axis [TPS; Pods] = Some (trace_secondary_y tr)).
Proof.
  assert (N : NoDup [TPS; Pods]).
  { constructor; [simpl; intros [H|[]]; discriminate|].
    constructor; [simpl; tauto | constructor]. }
  split; [exact N|].
  apply (traces_axes sample_agg [TPS; Pods] ["checkout"; "payments"]%string
           N).
Defined.

(** The metrics must be distinct for that: with [Pods] listed twice the
    traces go to the secondary axis and the title to the primary one. *)
Example traces_axes_repeated_metric :
  use_secondary_y [Pods; Pods] = true /\
  pods_title_axis [Pods; Pods] = Some false.
Proof. split; reflexivity. Qed.

Lemma sorted_starts (s : string) (sd : Frame AggregatedBucket) :
  (forall p, In p sd -> bucket_service (snd p) = s) ->
  StronglySorted key_lt (map (fun p => bucket_key (snd p)) sd) ->
  StronglySorted Z.lt (map (fun p => bucket_start (snd p)) sd).
Proof.
  induction sd as [|p sd IH]; simpl; intros Hs S; [constructor|].
  inversion S as [|? ? S' F]; subst.
  constructor; [apply IH; auto|].
  rewrite Forall_forall in *. intros t Ht. apply in_map_iff in Ht.
  destruct Ht as (q & <- & Hq).
  assert (L : key_lt (bucket_key (snd p)) (bucket_key (snd q))).
  { apply F. apply in_map_iff. exists q. auto. }
  unfold bucket_key in L.
  rewrite (Hs p (or_introl eq_refl)), (Hs q (or_intror Hq)) in L.
  apply key_lt_same_service in L. exact L.
Qed.

(** Lines 113-139.  Every trace drawn from a frame that [aggregate] returned
    has as many y values as x values, and its x values, the bucket starts of
    one service, are in strictly ascending order: each line of the chart
    runs forward in time. *)
Theorem traces_run_forward_in_time :
  forall (df : list Observation) (date_range : list date)
         (time_window : TimeWindow) (agg_method : AggMethod)
         (show_metrics : list Metric) (selected_services : list string)
         (df_agg : Frame AggregatedBucket),
    aggregate df date_range time_window agg_method selected_services
    = Returned df_agg ->
    forall tr, In tr (traces df_agg show_metrics selected_services) ->
      List.length (trace_x tr) = List.length (trace_y tr) /\
      StronglySorted Z.lt (trace_x tr).
Proof.
  intros df dr tw am show sel df_agg H tr Htr.
  apply aggregate_is_groupby in H. destruct H as [rows ->].
  unfold traces in Htr. apply in_flat_map in Htr.
  destruct Htr as (s & _ & Htr).
  assert (S : StronglySorted Z.lt
                (map (fun p => bucket_start (snd p))
                     (service_rows (groupby_agg (agg_map am) rows) s))).
  { apply (sorted_starts s).
    - intros [i b] Hp. apply service_rows_In in Hp. tauto.
    - apply service_rows_sorted. }
  unfold service_traces in Htr. cbv zeta in Htr.
  apply in_app_or in Htr. destruct Htr as [Htr|Htr].
  - destruct (shown TPS show); [|contradiction].
    destruct Htr as [<-|[]]. simpl. rewrite !length_map. auto.
  - destruct (shown Pods show); [|contradiction].
    destruct Htr as [<-|[]]. simpl. rewrite !length_map. auto.
Qed.

Lemma traces_run_forward_in_time_witness :
  aggregate sample_df sample_range Hour Maximum
    ["checkout"; "payments"]%string = Returned sample_agg /\
  forall tr,
    In tr (traces sample_agg [TPS; Pods] ["checkout"; "payments"]%string) ->
    List.length (trace_x tr) = List.length (trace_y tr) /\
    StronglySorted Z.lt (trace_x tr).
Proof.
  split; [reflexivity|].
  apply (traces_run_forward_in_time sample_df sample_range Hour Maximum
           [TPS; Pods] ["checkout"; "payments"]%string sample_agg).
  reflexivity.
Defined.

(** ** The Day window *)

Lemma NoDup_map_In_inj {A B : Type} (g : A -> B) (l : list A) (x y : A) :
  NoDup (map g l) -> In x l -> In y l -> g x = g y -> x = y.
Proof.
  induction l as [|a l IH]; simpl; intros N Hx Hy E; [contradiction|].
  inversion N as [|? ? Hn N']; subst.
  destruct Hx as [->|Hx], Hy as [->|Hy]; auto.
  - exfalso. apply Hn. rewrite E. apply in_map. exact Hy.
  - exfalso. apply Hn. rewrite <- E. apply in_map. exact Hx.
Qed.

Lemma floor_day_date (t : Timestamp) :
  floor_day t = Timestamp_of_date (Timestamp_date t).
Proof.
  rewrite floor_day_midnight. unfold Timestamp_of_date, Timestamp_date.
  apply Z.mul_comm.
Qed.

(** Lines 89-90 and 104-107.  With the Day window every bucket starts at the
    midnight of a calendar day; every observation the filters keep is in the
    bucket of its own service and calendar day; and there is one bucket at
    most for a service and a calendar day. *)
Theorem daily_buckets :
  forall (df : list Observation) (d0 d1 : date) (agg_method : AggMethod)
         (selected_services : list string)
         (df_agg : Frame AggregatedBucket),
    aggregate df [d0; d1] Day agg_method selected_services
    = Returned df_agg ->
    (forall i b, In (i, b) df_agg ->
       bucket_start b = Timestamp_of_date (Timestamp_date (bucket_start b)))
    /\
    (forall o,
       In o (filter_rows df (Timestamp_of_date d0)
               (Timestamp_of_date d1 + Timedelta_days 1
                - Timedelta_seconds 1) selected_services) ->
       exists i b,
         In (i, b) df_agg /\
         bucket_service b = service o /\
         bucket_start b = Timestamp_of_date (Timestamp_date (hour o))) /\
    (forall i b j c,
       In (i, b) df_agg -> In (j, c) df_agg ->
       bucket_service b = bucket_service c ->
       Timestamp_date (bucket_start b) = Timestamp_date (bucket_start c) ->
       (i, b) = (j, c)).
Proof.
  intros df d0 d1 am sel df_agg H.
  rewrite aggregate_two_dates in H. cbv zeta in H.
  set (df_filtered := filter_rows df _ _ sel) in *.
  unfold group_column, dt_floor, freq_nanos, bind in H.
  fold floor_day in H. change (fun v => v - v mod ns_per_day)
    with floor_day in H.
  rewrite (assign_group_map floor_day) in H. injection H as <-.
  set (rows := map (fun o => mkGrouped o (floor_day (hour o))) df_filtered).
  assert (Mid : forall i b, In (i, b) (groupby_agg (agg_map am) rows) ->
            bucket_start b
            = Timestamp_of_date (Timestamp_date (bucket_start b))).
  { intros i b Hin. apply groupby_agg_row in Hin.
    destruct Hin as (r & Hr & Hk). apply in_map_iff in Hr.
    destruct Hr as (o & <- & _). unfold key_of, bucket_key in Hk.
    simpl in Hk. injection Hk as Hs _. rewrite <- Hs.
    rewrite floor_day_midnight. unfold Timestamp_of_date, Timestamp_date.
    rewrite (Z.mul_comm ns_per_day), Z.div_mul; [reflexivity|].
    rewrite ns_per_day_value. lia. }
  split; [exact Mid|]. split.
  - intros o Ho.
    destruct (groupby_agg_covers (agg_map am) rows
                (mkGrouped o (floor_day (hour o)))) as (i & b & Hin & Hk).
    { apply in_map_iff. exists o. auto. }
    exists i, b. unfold key_of, bucket_key in Hk. simpl in Hk.
    injection Hk as Hs Hv. rewrite <- floor_day_date. auto.
  - intros i b j c Hb Hc Es Ed.
    apply (NoDup_map_In_inj (fun p => bucket_key (snd p))
             (groupby_agg (agg_map am) rows)); auto.
    + rewrite groupby_agg_keys. apply sorted_keys_NoDup, groupby_sorted.
    + simpl. unfold bucket_key. rewrite Es.
      rewrite (Mid i b Hb), (Mid j c Hc), Ed. reflexivity.
Qed.

Lemma daily_buckets_witness :
  aggregate sample_df sample_range Day Average ["checkout"%string]
  = Returned
      (groupby_agg agg_mean
         (map (fun o => mkGrouped o (floor_day (hour o)))
            (filter_rows sample_df (Timestamp_of_date day_2024_03_11)
               (Timestamp_of_date (day_2024_03_11 + 1) + Timedelta_days 1
                - Timedelta_seconds 1) ["checkout"%string]))) /\
  forall o,
    In o (filter_rows sample_df (Timestamp_of_date day_2024_03_11)
            (Timestamp_of_date (day_2024_03_11 + 1) + Timedelta_days 1
             - Timedelta_seconds 1) ["checkout"%string]) ->
    exists i b,
      In (i, b)
         (groupby_agg agg_mean
            (map (fun o => mkGrouped o (floor_day (hour o)))
               (filter_rows sample_df (Timestamp_of_date day_2024_03_11)
                  (Timestamp_of_date (day_2024_03_11 + 1) + Timedelta_days 1
                   - Timedelta_seconds 1) ["checkout"%string]))) /\
      bucket_service b = service o /\
      bucket_start b = Timestamp_of_date (Timestamp_date (hour o)).
Proof.
  split; [reflexivity|].
  apply (daily_buckets sample_df day_2024_03_11 (day_2024_03_11 + 1)
           Average ["checkout"%string]).
  reflexivity.
Defined.
